(** * Prometheus operator charm: reconciliation logic

    A shallow embedding of [src/charm.py] (class [PrometheusCharm]) and of
    [PrometheusRemoteWriteProvider.set_endpoint] from
    [lib/charms/prometheus_k8s/v0/prometheus_remote_write.py].

    Conventions.
    - A Python [str] is a Rocq [string], read as the UTF-8 encoding of the
      Python string.  [len] and iteration go by code point, [int] reads the
      decimal digits and the whitespace of Unicode as the interpreter does,
      and [lower] changes ASCII letters only.
    - Python dictionaries that are only built and serialised are association
      lists in insertion order; dictionaries that are compared or looked up by
      key (Pebble services, relation data bags) are [gmap]s.
    - Library calls whose result the charm treats as opaque ([yaml.dump],
      [hashlib.md5], [json.loads], [repr]) are fields of the class [Libs].
    - Pebble, reached through [ops.model.Container], is modelled as a layer
      stack with a log of the requests it accepted.
    - Logging is left out, and so is [__init__], which only registers the
      handlers and the initial stored state. *)

From Stdlib Require Import ZArith Ascii String List Bool Lia.
From stdpp Require Import base decidable option list strings gmap pretty.

Set Warnings "-register-all".

Local Open Scope string_scope.
Local Open Scope Z_scope.

(** ** Python values *)

Module Py.

(** The fragment of Python values the charm handles: what [json.loads]
    returns and what is handed to [yaml.dump].  A finite float is
    [mantissa * 2 ^ exponent]. *)
Inductive value : Type :=
| VNone
| VBool (b : bool)
| VInt (n : Z)
| VFloat (mantissa exponent : Z)
| VStr (s : string)
| VList (items : list value)
| VDict (entries : list (string * value)).

(** Exceptions that can escape the modelled code. *)
Inductive exn : Type :=
| ConnectionError
| TypeError
| AttributeError
| ValueError
| ModelError
| APIError.

#[global] Instance exn_eq_dec : EqDecision exn.
Proof. solve_decision. Defined.

(** Truthiness, as used by [if x:]. *)
Definition truthy (v : value) : bool :=
  match v with
  | VNone => false
  | VBool b => b
  | VInt n => negb (n =? 0)
  | VFloat m _ => negb (m =? 0)
  | VStr s => negb (String.eqb s "")
  | VList l => negb (Nat.eqb (length l) 0)
  | VDict d => negb (Nat.eqb (length d) 0)
  end.

(** [d[k] = v] on an insertion-ordered dictionary. *)
Fixpoint dict_set (k : string) (v : value) (d : list (string * value))
  : list (string * value) :=
  match d with
  | [] => [(k, v)]
  | (k', v') :: r =>
      if String.eqb k' k then (k', v) :: r else (k', v') :: dict_set k v r
  end.

(** [d.get(k)]. *)
Fixpoint dict_get (k : string) (d : list (string * value)) : option value :=
  match d with
  | [] => None
  | (k', v') :: r => if String.eqb k' k then Some v' else dict_get k r
  end.

(** A byte that continues a UTF-8 sequence, with the six bits it carries. *)
Definition continuation (c : ascii) : option N :=
  let n := N_of_ascii c in
  if ((128 <=? n) && (n <=? 191))%N then Some (n - 128)%N else None.

(** The characters of a string: each byte that starts a UTF-8 sequence,
    together with the continuation bytes that follow it. *)
Fixpoint code_points (s : string) : list string :=
  match s with
  | EmptyString => []
  | String c r =>
      let starts_inside :=
        match r with
        | String c' _ => bool_decide (is_Some (continuation c'))
        | EmptyString => false
        end in
      match code_points r with
      | x :: rest =>
          if starts_inside then String c x :: rest
          else String c EmptyString :: x :: rest
      | [] => [String c EmptyString]
      end
  end.

(** [len(x)]; [TypeError] on objects without a length. *)
Definition len (v : value) : exn + nat :=
  match v with
  | VStr s => inr (length (code_points s))
  | VList l => inr (length l)
  | VDict d => inr (length d)
  | _ => inl TypeError
  end.

Definition chars (s : string) : list value := map VStr (code_points s).

(** [[x for x in v]] for the values that have a length (the charm iterates
    only after [len] succeeded). *)
Definition iter (v : value) : list value :=
  match v with
  | VStr s => chars s
  | VList l => l
  | VDict d => map (fun kv => VStr (fst kv)) d
  | _ => []
  end.

(** ASCII whitespace accepted around the digits by [int(s)]: tab to
    carriage return, and the space.  The separators 28 to 31, which
    [str.isspace] accepts, are not: [int] raises [ValueError] on them. *)
Definition is_space (c : ascii) : bool :=
  let n := nat_of_ascii c in
  ((9 <=? n)%nat && (n <=? 13)%nat) || (n =? 32)%nat.

Definition digit_val (c : ascii) : option Z :=
  let n := nat_of_ascii c in
  if ((48 <=? n)%nat && (n <=? 57)%nat)
  then Some (Z.of_nat n - 48) else None.

Fixpoint all_space (s : string) : bool :=
  match s with
  | EmptyString => true
  | String c r => is_space c && all_space r
  end.

Fixpoint lstrip (s : string) : string :=
  match s with
  | EmptyString => EmptyString
  | String c r => if is_space c then lstrip r else s
  end.

(** Digits after a first digit: single underscores may separate digits,
    trailing whitespace is allowed, anything else is a [ValueError]. *)
Fixpoint int_digits (acc : Z) (s : string) : option Z :=
  match s with
  | EmptyString => Some acc
  | String c r =>
      match digit_val c with
      | Some d => int_digits (acc * 10 + d) r
      | None =>
          if Ascii.eqb c "_"%char then
            match r with
            | String c2 r2 =>
                match digit_val c2 with
                | Some d => int_digits (acc * 10 + d) r2
                | None => None
                end
            | EmptyString => None
            end
          else if all_space s then Some acc else None
      end
  end.

Definition int_unsigned (s : string) : option Z :=
  match s with
  | String c r =>
      match digit_val c with
      | Some d => int_digits d r
      | None => None
      end
  | EmptyString => None
  end.

(** An integer literal in base ten, once the text is ASCII. *)
Definition int_ascii (s : string) : option Z :=
  match lstrip s with
  | String c r =>
      if Ascii.eqb c "-"%char then Z.opp <$> int_unsigned r
      else if Ascii.eqb c "+"%char then int_unsigned r
      else int_unsigned (String c r)
  | EmptyString => None
  end.

(** Whitespace outside ASCII, as [str.isspace] has it: next line, the
    no-break spaces, the Ogham space mark, the spaces U+2000 to U+200A, the
    line and paragraph separators, the medium mathematical space and the
    ideographic space. *)
Definition unicode_space (cp : N) : bool :=
  existsb (N.eqb cp) [133; 160; 5760; 8232; 8233; 8239; 8287; 12288]%N
  || ((8192 <=? cp) && (cp <=? 8202))%N.

(** The digit zero of each run of ten decimal digits outside ASCII, from the
    character database of the interpreter (Unicode 14.0). *)
Definition decimal_zeros : list N :=
  [1632; 1776; 1984; 2406; 2534; 2662; 2790; 2918; 3046; 3174; 3302; 3430;
   3558; 3664; 3792; 3872; 4160; 4240; 6112; 6160; 6470; 6608; 6784; 6800;
   6992; 7088; 7232; 7248; 42528; 43216; 43264; 43472; 43504; 43600; 44016;
   65296; 66720; 68912; 69734; 69872; 69942; 70096; 70384; 70736; 70864;
   71248; 71360; 71472; 71904; 72016; 72784; 73040; 73120; 92768; 92864;
   93008; 120782; 120792; 120802; 120812; 120822; 123200; 123632; 125264;
   130032]%N.

(** The decimal value of a code point outside ASCII, if it is a digit. *)
Definition unicode_decimal (cp : N) : option N :=
  (fun z => (cp - z)%N)
    <$> List.find (fun z => ((z <=? cp) && (cp <=? z + 9))%N) decimal_zeros.

(** What [int] makes of a code point from 127 on before it reads the
    literal: a space for whitespace, the ASCII digit for a decimal digit, a
    question mark (which no literal contains) for anything else. *)
Definition transliterate (cp : N) : ascii :=
  if unicode_space cp then " "%char
  else match unicode_decimal cp with
       | Some d => ascii_of_N (48 + d)
       | None => "?"%char
       end.

(** The ASCII text that [int] reads in place of [s]: code points below 127
    stay, the others are transliterated.  [None] if [s] is not the UTF-8
    encoding of a Python string. *)
Fixpoint ascii_form (s : string) : option string :=
  match s with
  | EmptyString => Some EmptyString
  | String b r =>
      let n := N_of_ascii b in
      if (n <? 127)%N then String b <$> ascii_form r
      else if (n <? 128)%N then String (transliterate n) <$> ascii_form r
      else
        match r with
        | String b1 r1 =>
            match continuation b1 with
            | Some x1 =>
                if (n <? 224)%N then
                  let cp := ((n - 192) * 64 + x1)%N in
                  if (194 <=? n)%N
                  then String (transliterate cp) <$> ascii_form r1
                  else None
                else
                  match r1 with
                  | String b2 r2 =>
                      match continuation b2 with
                      | Some x2 =>
                          if (n <? 240)%N then
                            let cp := ((n - 224) * 4096 + x1 * 64 + x2)%N in
                            if ((2048 <=? cp)
                                && negb ((55296 <=? cp) && (cp <=? 57343)))%N
                            then String (transliterate cp) <$> ascii_form r2
                            else None
                          else
                            match r2 with
                            | String b3 r3 =>
                                match continuation b3 with
                                | Some x3 =>
                                    let cp := ((n - 240) * 262144 + x1 * 4096
                                               + x2 * 64 + x3)%N in
                                    if ((65536 <=? cp) && (cp <=? 1114111))%N
                                    then String (transliterate cp)
                                           <$> ascii_form r3
                                    else None
                                | None => None
                                end
                            | EmptyString => None
                            end
                      | None => None
                      end
                  | EmptyString => None
                  end
            | None => None
            end
        | EmptyString => None
        end
  end.

(** [int(s)] in base ten; [None] stands for [ValueError].  The cap that
    recent interpreters put on the number of digits is not modelled. *)
Definition int (s : string) : option Z :=
  match ascii_form s with
  | Some a => int_ascii a
  | None => None
  end.

Definition lower_char (c : ascii) : ascii :=
  let n := nat_of_ascii c in
  if ((65 <=? n)%nat && (n <=? 90)%nat) then ascii_of_nat (n + 32) else c.

(** [s.lower()] on ASCII letters.  The charm uses the result only when it is
    one of five ASCII words.  Outside ASCII only the Kelvin sign lowercases
    to an ASCII letter, a k, which none of the words contains, and only the
    dotted capital I lowercases to text with an ASCII letter in it, an i
    followed by a combining dot: a string with a character outside ASCII
    never lowercases to one of the words. *)
Fixpoint lower (s : string) : string :=
  match s with
  | EmptyString => EmptyString
  | String c r => String (lower_char c) (lower r)
  end.

(** [s.startswith(p)]. *)
Definition startswith (p s : string) : bool := String.prefix p s.

(** [timeval[:-1], timeval[-1]] for a non-empty string. *)
Fixpoint split_last (c : ascii) (s : string) : string * ascii :=
  match s with
  | EmptyString => (EmptyString, c)
  | String c' r => let '(init, l) := split_last c' r in (String c init, l)
  end.

(** [" ".join(l)]. *)
Fixpoint join (sep : string) (l : list string) : string :=
  match l with
  | [] => ""
  | [x] => x
  | x :: r => x +:+ sep +:+ join sep r
  end.

(** [str(n)] for an integer. *)
Definition str_of_int (n : Z) : string := pretty n.

End Py.

(** ** External libraries *)

(** Library functions the charm calls and whose output it never inspects. *)
Class Libs : Type := {
  (** [yaml.dump(doc)] *)
  yaml_dump : Py.value -> string;
  (** [hashlib.md5(data).hexdigest()] *)
  md5_hexdigest : list Byte.byte -> string;
  (** [json.loads(text)]; [None] stands for a decoding error *)
  json_loads : string -> option Py.value;
  (** [repr(x)], which is what [str(x)] returns on a non-string *)
  py_repr : Py.value -> string;
}.

(** [str(x)]: the identity on strings. *)
Definition py_str `{Libs} (v : Py.value) : string :=
  match v with
  | Py.VStr s => s
  | _ => py_repr v
  end.

(** [s.encode("utf-8")]. *)
Definition encode_utf8 (s : string) : list Byte.byte := list_byte_of_string s.

(** ** Operator configuration ([self.model.config]) *)

(** The options of the charm, typed as Juju types them; [None] is an unset
    option, for which [config.get] returns [None]. *)
Record Config : Type := {
  cfg_log_level : option string;
  cfg_tsdb_wal_compression : option bool;
  cfg_tsdb_retention_time : option string;
  cfg_external_labels : option string;
  cfg_scrape_interval : option string;
  cfg_scrape_timeout : option string;
  cfg_evaluation_interval : option string;
  cfg_port : Z;
}.

(** Truth value of [config.get(key)] for a string option. *)
Definition opt_truthy (o : option string) : bool :=
  match o with
  | Some s => negb (String.eqb s "")
  | None => false
  end.

(** [config[key]] once [config.get(key)] was found truthy. *)
Definition opt_value (o : option string) : string := default "" o.

(** ** Command line *)

Definition allowed_units : list ascii :=
  ["y"; "w"; "d"; "h"; "m"; "s"]%char.

Definition _is_valid_timespec (timeval : string) : bool :=
  match timeval with
  | EmptyString => false
  | String c r =>
      let '(time, unit) := Py.split_last c r in
      if negb (existsb (Ascii.eqb unit) allowed_units) then false
      else
        match Py.int time with
        | None => false
        | Some n => if negb (0 <? n) then false else true
        end
  end.

Definition allowed_log_levels : list string :=
  ["debug"; "info"; "warn"; "error"; "fatal"].

Definition base_args : list string :=
  [ "--config.file=/etc/prometheus/prometheus.yml";
    "--storage.tsdb.path=/var/lib/prometheus";
    "--web.enable-lifecycle";
    "--web.console.templates=/usr/share/prometheus/consoles";
    "--web.console.libraries=/usr/share/prometheus/console_libraries" ].

(** The value given to [--log.level]. *)
Definition effective_log_level (config : Config) : string :=
  let log_level :=
    if opt_truthy (cfg_log_level config)
    then Py.lower (opt_value (cfg_log_level config))
    else "info" in
  if negb (existsb (String.eqb log_level) allowed_log_levels)
  then "debug" else log_level.

Definition _cli_args (config : Config) : list string :=
  let args := base_args in
  let args := (args ++ ["--log.level=" +:+ effective_log_level config])%list in
  let args :=
    if default false (cfg_tsdb_wal_compression config)
    then (args ++ ["--storage.tsdb.wal-compression"])%list else args in
  let args :=
    if opt_truthy (cfg_tsdb_retention_time config)
       && _is_valid_timespec (opt_value (cfg_tsdb_retention_time config))
    then (args ++ ["--storage.tsdb.retention.time="
                     +:+ opt_value (cfg_tsdb_retention_time config)])%list
    else args in
  args.

Definition _command (config : Config) : string :=
  Py.join " " ("/bin/prometheus" :: _cli_args config).

(** ** Configuration document *)

Section Synthesis.
Context `{Libs}.

Definition all_str_values (d : list (string * Py.value)) : bool :=
  forallb (fun kv => match snd kv with Py.VStr _ => true | _ => false end) d.

Definition _are_valid_labels (json_data : string) : bool :=
  if String.eqb json_data "" then false
  else
    match json_loads json_data with
    | None => false
    | Some (Py.VDict labels) => all_str_values labels
    | Some _ => false
    end.

Definition _external_labels (config : Config) : list (string * Py.value) :=
  if opt_truthy (cfg_external_labels config)
     && _are_valid_labels (opt_value (cfg_external_labels config))
  then
    match json_loads (opt_value (cfg_external_labels config)) with
    | Some (Py.VDict labels) => labels
    | _ => []
    end
  else [].

(** One [if config.get(key) and self._is_valid_timespec(config[key])] step. *)
Definition set_timespec (key : string) (o : option string)
    (d : list (string * Py.value)) : list (string * Py.value) :=
  if opt_truthy o && _is_valid_timespec (opt_value o)
  then Py.dict_set key (Py.VStr (opt_value o)) d else d.

Definition _prometheus_global_config (config : Config)
  : list (string * Py.value) :=
  let global_config := [] in
  let labels := _external_labels config in
  let global_config :=
    if Py.truthy (Py.VDict labels)
    then Py.dict_set "external_labels" (Py.VDict labels) global_config
    else global_config in
  let global_config :=
    set_timespec "scrape_interval" (cfg_scrape_interval config) global_config in
  let global_config :=
    set_timespec "scrape_timeout" (cfg_scrape_timeout config) global_config in
  let global_config :=
    set_timespec "evaluation_interval" (cfg_evaluation_interval config)
      global_config in
  global_config.

(** [self._stored]. *)
Record Stored : Type := {
  stored_alertmanagers : Py.value;
  stored_provider_ready : bool;
  stored_prometheus_config_hash : option string;
}.

Definition _alerting_config (stored : Stored) : Py.exn + Py.value :=
  let alerting_config := Py.VStr "" in
  match Py.len (stored_alertmanagers stored) with
  | inl e => inl e
  | inr n =>
      if (n <? 1)%nat then inr alerting_config
      else
        let targets := Py.iter (stored_alertmanagers stored) in
        let manager_config :=
          Py.VDict [("static_configs",
                     Py.VList [Py.VDict [("targets", Py.VList targets)]])] in
        inr (Py.VDict [("alertmanagers", Py.VList [manager_config])])
  end.

(** [d[key].append(x)]. *)
Fixpoint dict_list_append (key : string) (x : Py.value)
    (d : list (string * Py.value)) : list (string * Py.value) :=
  match d with
  | [] => []
  | (k, v) :: r =>
      if String.eqb k key then
        match v with
        | Py.VList l => (k, Py.VList (l ++ [x])%list) :: r
        | _ => (k, v) :: r
        end
      else (k, v) :: dict_list_append key x r
  end.

(** The job with which Prometheus scrapes itself. *)
Definition default_config (config : Config) : Py.value :=
  Py.VDict
    [ ("job_name", Py.VStr "prometheus");
      ("scrape_interval", Py.VStr "5s");
      ("scrape_timeout", Py.VStr "5s");
      ("metrics_path", Py.VStr "/metrics");
      ("honor_timestamps", Py.VBool true);
      ("scheme", Py.VStr "http");
      ("static_configs",
       Py.VList
         [Py.VDict
            [("targets",
              Py.VList
                [Py.VStr ("localhost:" +:+ Py.str_of_int (cfg_port config))])]])
    ].

(** The dictionary [scrape_config] that [_prometheus_config] hands to
    [yaml.dump].  [scrape_jobs] is what [self.prometheus_provider.jobs()]
    returns; the provider object exists whenever the stored readiness flag is
    set, since [__init__] creates it exactly when [self.provider_ready]
    returns [True]. *)
Definition scrape_config_doc (config : Config) (stored : Stored)
    (scrape_jobs : list Py.value) : Py.exn + list (string * Py.value) :=
  let scrape_config :=
    [ ("global", Py.VDict (_prometheus_global_config config));
      ("scrape_configs", Py.VList []) ] in
  match _alerting_config stored with
  | inl e => inl e
  | inr alerting_config =>
      let scrape_config :=
        if Py.truthy alerting_config
        then Py.dict_set "alerting" alerting_config scrape_config
        else scrape_config in
      let scrape_config :=
        dict_list_append "scrape_configs" (default_config config)
          scrape_config in
      let scrape_config :=
        if stored_provider_ready stored
        then fold_left (fun d job => dict_list_append "scrape_configs" job d)
               scrape_jobs scrape_config
        else scrape_config in
      inr scrape_config
  end.

Definition _prometheus_config (config : Config) (stored : Stored)
    (scrape_jobs : list Py.value) : Py.exn + string :=
  match scrape_config_doc config stored scrape_jobs with
  | inl e => inl e
  | inr scrape_config => inr (yaml_dump (Py.VDict scrape_config))
  end.

End Synthesis.

(** ** The workload container (Pebble, through [ops.model.Container]) *)

(** A service description, restricted to the fields the charm sets.  Pebble
    returns them unchanged in the plan, and [ops.pebble.Service] compares
    equal to the dictionary with the same fields, so the comparison of
    [plan.services] with the services of the layer is a comparison of maps
    of such records. *)
Record Service : Type := {
  svc_override : string;
  svc_summary : string;
  svc_command : string;
  svc_startup : string;
}.

#[global] Instance Service_eq_dec : EqDecision Service.
Proof. solve_decision. Defined.

Record Layer : Type := {
  layer_summary : string;
  layer_description : string;
  layer_services : gmap string Service;
}.

(** State-changing requests that Pebble accepted, oldest first. *)
Inductive Call : Type :=
| Push (path : string) (data : list Byte.byte)
| AddLayer (label : string) (layer : Layer)
| Stop (service : string)
| Start (service : string).

Record Container : Type := {
  (** whether the Pebble socket answers; every request raises
      [ConnectionError] when it does not *)
  connected : bool;
  files : gmap string (list Byte.byte);
  layers : list (string * Layer);
  active : gset string;
  calls : list Call;
}.

Definition pick (new old : string) : string :=
  if String.eqb new "" then old else new.

Definition merge_service (old new : Service) : Service :=
  {| svc_override := svc_override new;
     svc_summary := pick (svc_summary new) (svc_summary old);
     svc_command := pick (svc_command new) (svc_command old);
     svc_startup := pick (svc_startup new) (svc_startup old) |}.

(** One service of an upper layer laid over the services below it. *)
Definition apply_service (name : string) (s : Service)
    (base : gmap string Service) : gmap string Service :=
  if String.eqb (svc_override s) "merge" then
    match base !! name with
    | Some old => <[name := merge_service old s]> base
    | None => <[name := s]> base
    end
  else <[name := s]> base.

Definition combine_services (base new : gmap string Service)
  : gmap string Service :=
  map_fold apply_service base new.

Definition merge_layer (old new : Layer) : Layer :=
  {| layer_summary := pick (layer_summary new) (layer_summary old);
     layer_description := pick (layer_description new) (layer_description old);
     layer_services :=
       combine_services (layer_services old) (layer_services new) |}.

(** [add_layer(label, layer, combine=True)] on the layer stack. *)
Fixpoint combine_layer (label : string) (new : Layer)
    (ls : list (string * Layer)) : list (string * Layer) :=
  match ls with
  | [] => [(label, new)]
  | (l, old) :: r =>
      if String.eqb l label then (l, merge_layer old new) :: r
      else (l, old) :: combine_layer label new r
  end.

(** The services of the flattened plan, [get_plan().services]. *)
Definition plan_services (c : Container) : gmap string Service :=
  fold_left (fun acc ll => combine_services acc (layer_services (snd ll)))
    (layers c) ∅.

Definition valid_override (s : Service) : bool :=
  String.eqb (svc_override s) "replace" || String.eqb (svc_override s) "merge".

Definition valid_layer (l : Layer) : bool :=
  forallb (fun kv => valid_override (snd kv)) (map_to_list (layer_services l)).

Definition log_call (k : Call) (c : Container) : Container :=
  {| connected := connected c; files := files c; layers := layers c;
     active := active c; calls := (calls c ++ [k])%list |}.

Definition set_connected (b : bool) (c : Container) : Container :=
  {| connected := b; files := files c; layers := layers c;
     active := active c; calls := calls c |}.

(** The container after an accepted [push], [add_layer], [stop], [start]. *)
Definition push_state (path : string) (data : list Byte.byte) (c : Container)
  : Container :=
  log_call (Push path data)
    {| connected := connected c; files := <[path := data]> (files c);
       layers := layers c; active := active c; calls := calls c |}.

Definition add_layer_state (label : string) (layer : Layer) (c : Container)
  : Container :=
  log_call (AddLayer label layer)
    {| connected := connected c; files := files c;
       layers := combine_layer label layer (layers c);
       active := active c; calls := calls c |}.

Definition stop_state (name : string) (c : Container) : Container :=
  log_call (Stop name)
    {| connected := connected c; files := files c; layers := layers c;
       active := active c ∖ {[name]}; calls := calls c |}.

Definition start_state (name : string) (c : Container) : Container :=
  log_call (Start name)
    {| connected := connected c; files := files c; layers := layers c;
       active := active c ∪ {[name]}; calls := calls c |}.

(** [push(path, source)] with a [str] source, which is encoded as UTF-8. *)
Definition pebble_push (path : string) (source : string) (c : Container)
  : Py.exn + Container :=
  if connected c then inr (push_state path (encode_utf8 source) c)
  else inl Py.ConnectionError.

Definition pebble_get_plan (c : Container)
  : Py.exn + gmap string Service :=
  if connected c then inr (plan_services c) else inl Py.ConnectionError.

Definition pebble_add_layer (label : string) (layer : Layer) (c : Container)
  : Py.exn + Container :=
  if connected c then
    if valid_layer layer then inr (add_layer_state label layer c)
    else inl Py.APIError
  else inl Py.ConnectionError.

(** [get_service(name).is_running()]. *)
Definition pebble_is_running (name : string) (c : Container)
  : Py.exn + bool :=
  if connected c then
    match plan_services c !! name with
    | Some _ => inr (bool_decide (name ∈ active c))
    | None => inl Py.ModelError
    end
  else inl Py.ConnectionError.

Definition pebble_stop (name : string) (c : Container) : Py.exn + Container :=
  if connected c then
    match plan_services c !! name with
    | Some _ => inr (stop_state name c)
    | None => inl Py.APIError
    end
  else inl Py.ConnectionError.

Definition pebble_start (name : string) (c : Container) : Py.exn + Container :=
  if connected c then
    match plan_services c !! name with
    | Some _ => inr (start_state name c)
    | None => inl Py.APIError
    end
  else inl Py.ConnectionError.

(** ** The charm object and its environment *)

Inductive Status : Type :=
| ActiveStatus
| MaintenanceStatus (message : string).

Record World : Type := {
  config : Config;
  stored : Stored;
  (** the scrape jobs announced by peers, which
      [self.prometheus_provider.jobs()] returns once the provider exists *)
  peer_jobs : list Py.value;
  (** [self.unit.is_leader()] *)
  leader : bool;
  container : Container;
  app_status : option Status;
  unit_status : option Status;
}.

Definition with_stored (s : Stored) (w : World) : World :=
  {| config := config w; stored := s; peer_jobs := peer_jobs w;
     leader := leader w; container := container w;
     app_status := app_status w; unit_status := unit_status w |}.

Definition with_container (c : Container) (w : World) : World :=
  {| config := config w; stored := stored w; peer_jobs := peer_jobs w;
     leader := leader w; container := c;
     app_status := app_status w; unit_status := unit_status w |}.

Definition with_app_status (s : Status) (w : World) : World :=
  {| config := config w; stored := stored w; peer_jobs := peer_jobs w;
     leader := leader w; container := container w;
     app_status := Some s; unit_status := unit_status w |}.

Definition with_unit_status (s : Status) (w : World) : World :=
  {| config := config w; stored := stored w; peer_jobs := peer_jobs w;
     leader := leader w; container := container w;
     app_status := app_status w; unit_status := Some s |}.

Definition set_alertmanagers (v : Py.value) (s : Stored) : Stored :=
  {| stored_alertmanagers := v;
     stored_provider_ready := stored_provider_ready s;
     stored_prometheus_config_hash := stored_prometheus_config_hash s |}.

Definition set_provider_ready (b : bool) (s : Stored) : Stored :=
  {| stored_alertmanagers := stored_alertmanagers s;
     stored_provider_ready := b;
     stored_prometheus_config_hash := stored_prometheus_config_hash s |}.

Definition set_prometheus_config_hash (h : option string) (s : Stored)
  : Stored :=
  {| stored_alertmanagers := stored_alertmanagers s;
     stored_provider_ready := stored_provider_ready s;
     stored_prometheus_config_hash := h |}.

(** ** Methods as state transformers that may raise *)

Definition M (A : Type) : Type := World -> World * (Py.exn + A).

Definition ret {A} (a : A) : M A := fun w => (w, inr a).

Definition bind {A B} (m : M A) (k : A -> M B) : M B :=
  fun w =>
    match m w with
    | (w', inr a) => k a w'
    | (w', inl e) => (w', inl e)
    end.

Definition raise {A} (e : Py.exn) : M A := fun w => (w, inl e).

Definition gets {A} (f : World -> A) : M A := fun w => (w, inr (f w)).

Definition modify (f : World -> World) : M unit := fun w => (f w, inr tt).

(** [try: m  except e: h]. *)
Definition try_except {A} (m : M A) (e : Py.exn) (h : M A) : M A :=
  fun w =>
    match m w with
    | (w', inl e') => if decide (e' = e) then h w' else (w', inl e')
    | r => r
    end.

(** A container request that changes the container. *)
Definition request (f : Container -> Py.exn + Container) : M unit :=
  fun w =>
    match f (container w) with
    | inr c => (with_container c w, inr tt)
    | inl e => (w, inl e)
    end.

(** A container request that only reads. *)
Definition query {A} (f : Container -> Py.exn + A) : M A :=
  fun w => (w, f (container w)).

Notation "x <- m ;; k" := (bind m (fun x => k))
  (at level 20, m at level 99, k at level 200, only parsing).
Notation "m ;; k" := (bind m (fun _ => k))
  (at level 100, k at level 200, right associativity, only parsing).

Definition when (b : bool) (m : M unit) : M unit := if b then m else ret tt.

Definition run {A} (m : M A) (w : World) : World := fst (m w).
Definition outcome {A} (m : M A) (w : World) : Py.exn + A := snd (m w).

(** ** [PrometheusCharm] *)

Section Charm.
Context `{Libs}.

Definition PROMETHEUS_CONFIG : string := "/etc/prometheus/prometheus.yml".

Definition prometheus_service (config : Config) : Service :=
  {| svc_override := "replace";
     svc_summary := "prometheus daemon";
     svc_command := _command config;
     svc_startup := "enabled" |}.

Definition _prometheus_layer (config : Config) : Layer :=
  {| layer_summary := "Prometheus layer";
     layer_description := "Pebble layer configuration for Prometheus";
     layer_services := {[ "prometheus" := prometheus_service config ]} |}.

(** The bytes whose MD5 digest [_configure] takes. *)
Definition fingerprint_input (prometheus_config : string) : list Byte.byte :=
  encode_utf8 (py_str (Py.VStr prometheus_config)).

Definition set_hash (config_hash : string) : M unit :=
  modify (fun w =>
    with_stored (set_prometheus_config_hash (Some config_hash) (stored w)) w).

(** Lines 95-110 of [_configure]: the workload and the statuses. *)
Definition setup_workload : M unit :=
  layer <- gets (fun w => _prometheus_layer (config w)) ;;
  services <- query pebble_get_plan ;;
  when (bool_decide (services ≠ layer_services layer))
    (request (pebble_add_layer "prometheus" layer) ;;
     running <- query (pebble_is_running "prometheus") ;;
     when running (request (pebble_stop "prometheus")) ;;
     request (pebble_start "prometheus")) ;;
  is_leader <- gets leader ;;
  when is_leader (modify (with_app_status ActiveStatus)) ;;
  modify (with_unit_status ActiveStatus).

Definition _configure : M unit :=
  prometheus_config <-
    (fun w => (w, _prometheus_config (config w) (stored w) (peer_jobs w))) ;;
  let config_hash := md5_hexdigest (fingerprint_input prometheus_config) in
  stored_hash <- gets (fun w => stored_prometheus_config_hash (stored w)) ;;
  proceed <-
    (if bool_decide (stored_hash ≠ Some config_hash) then
       try_except
         (request (pebble_push PROMETHEUS_CONFIG prometheus_config) ;;
          set_hash config_hash ;;
          ret true)
         Py.ConnectionError
         (ret false)
     else ret true) ;;
  if negb proceed then ret tt else setup_workload.

Definition _on_pebble_ready : M unit := _configure.
Definition _on_config_changed : M unit := _configure.
Definition _on_scrape_targets_changed : M unit := _configure.

Definition _on_stop : M unit :=
  modify (with_unit_status (MaintenanceStatus "Pod is terminating.")).

(** [addrs_field] is [event.relation.data[event.app].get("addrs")]. *)
Definition _on_alertmanager_changed (addrs_field : option string) : M unit :=
  is_leader <- gets leader ;;
  if negb is_leader then ret tt
  else
    match json_loads (default "[]" addrs_field) with
    | None => raise Py.ValueError
    | Some addrs =>
        modify (fun w => with_stored (set_alertmanagers addrs (stored w)) w) ;;
        _configure
    end.

(** [x.clear()]. *)
Definition py_clear (v : Py.value) : Py.exn + Py.value :=
  match v with
  | Py.VList _ => inr (Py.VList [])
  | Py.VDict _ => inr (Py.VDict [])
  | _ => inl Py.AttributeError
  end.

Definition _on_alertmanager_broken : M unit :=
  is_leader <- gets leader ;;
  if negb is_leader then ret tt
  else
    cleared <- (fun w => (w, py_clear (stored_alertmanagers (stored w)))) ;;
    modify (fun w => with_stored (set_alertmanagers cleared (stored w)) w) ;;
    _configure.

(** The [version] property; [info] is the answer of
    [Prometheus(...).build_info()], [None] when the server is unreachable. *)
Definition version (info : option (list (string * Py.value))) : Py.value :=
  match info with
  | Some d =>
      if Py.truthy (Py.VDict d) then default Py.VNone (Py.dict_get "version" d)
      else Py.VNone
  | None => Py.VNone
  end.

(** The [provider_ready] property. *)
Definition provider_ready (info : option (list (string * Py.value)))
  : M bool :=
  let provided := version info in
  ready <- gets (fun w => stored_provider_ready (stored w)) ;;
  when (negb ready && Py.truthy provided)
    (modify (fun w => with_stored (set_provider_ready true (stored w)) w)) ;;
  gets (fun w => stored_provider_ready (stored w)).

(** The entry points through which the charm's state evolves: a read of the
    readiness property with the probe's answer, or a handler. *)
Inductive Op : Type :=
| OpProviderReady (info : option (list (string * Py.value)))
| OpPebbleReady
| OpConfigChanged
| OpScrapeTargetsChanged
| OpStop
| OpAlertmanagerChanged (addrs_field : option string)
| OpAlertmanagerBroken.

(** Runs one entry point; an exception ends the entry point and leaves the
    state as it was when raised. *)
Definition step (op : Op) (w : World) : World :=
  match op with
  | OpProviderReady info => run (provider_ready info) w
  | OpPebbleReady => run _on_pebble_ready w
  | OpConfigChanged => run _on_config_changed w
  | OpScrapeTargetsChanged => run _on_scrape_targets_changed w
  | OpStop => run _on_stop w
  | OpAlertmanagerChanged a => run (_on_alertmanager_changed a) w
  | OpAlertmanagerBroken => run _on_alertmanager_broken w
  end.

Definition run_ops (ops : list Op) (w : World) : World :=
  fold_left (fun w op => step op w) ops w.

End Charm.

(** [_on_grafana_changed]: [data] is [event.relation.data[self.unit]] and
    [bind_address] the address of the relation's network binding. *)
Definition _on_grafana_changed (config : Config) (bind_address : string)
    (data : gmap string string) : gmap string string :=
  let data := <["port" := Py.str_of_int (cfg_port config)]> data in
  let data := <["source-type" := "prometheus"]> data in
  <["private-address" := bind_address]> data.

(** ** [PrometheusRemoteWriteProvider.set_endpoint] *)

Module RemoteWrite.

(** [port: Union[str, int]]. *)
Inductive Port : Type :=
| PortStr (s : string)
| PortInt (n : Z).

Definition str_of_port (p : Port) : string :=
  match p with
  | PortStr s => s
  | PortInt n => Py.str_of_int n
  end.

(** Lines 328-332: the path as it enters the URL. *)
Definition normalize_path (path : string) : string :=
  if negb (String.eqb path "") then
    if Py.startswith "/" path then path else "/" +:+ path
  else "".

(** Lines 324-326: [bind_address] is the address of the relation's network
    binding, used when no address is given. *)
Definition effective_address (address : option string) (bind_address : string)
  : string :=
  if opt_truthy address then opt_value address else bind_address.

Definition endpoint_url (schema : string) (address : option string)
    (port : Port) (path : string) (bind_address : string) : string :=
  schema +:+ "://" +:+ effective_address address bind_address +:+ ":"
    +:+ str_of_port port +:+ normalize_path path.

(** [relations] holds, for each relation of the managed name, the data bag of
    this unit. *)
Definition set_endpoint (schema : string) (address : option string)
    (port : Port) (path : string) (bind_address : string)
    (relations : list (gmap string string)) : list (gmap string string) :=
  let url := endpoint_url schema address port path bind_address in
  map (fun data => <["remote_write_endpoint" := url]> data) relations.

Definition DEFAULT_RELATION_NAME : string := "prometheus-remote-write".
Definition RELATION_INTERFACE_NAME : string := "prometheus_remote_write".

(** [ops.charm.RelationRole]. *)
Inductive RelationRole : Type :=
| peer
| requires
| provides.

(** [ops.charm.RelationMeta], with the two attributes the library reads. *)
Record RelationMeta : Type := {
  role : RelationRole;
  interface_name : string;
}.

(** [charm.meta], with the three dictionaries the library reads. *)
Record CharmMeta : Type := {
  meta_relations : gmap string RelationMeta;
  meta_provides : gmap string RelationMeta;
  meta_requires : gmap string RelationMeta;
}.

(** The exceptions of the library; the last one is the plain [Exception]
    raised for an unexpected direction. *)
Inductive Error : Type :=
| RelationNotFoundError (relation_name : string)
| RelationInterfaceMismatchError
    (relation_name expected_relation_interface actual_relation_interface
      : string)
| RelationRoleMismatchError
    (relation_name : string)
    (expected_relation_role actual_relation_role : RelationRole)
| UnexpectedRelationDirection (expected_relation_role : RelationRole).

(** [name in d]. *)
Definition has_key (name : string) (d : gmap string RelationMeta) : bool :=
  match d !! name with Some _ => true | None => false end.

Definition _validate_relation_by_interface_and_direction
    (meta : CharmMeta) (relation_name : string)
    (expected_relation_interface : string)
    (expected_relation_role : RelationRole) : Error + unit :=
  match meta_relations meta !! relation_name with
  | None => inl (RelationNotFoundError relation_name)
  | Some relation =>
      let actual_relation_interface := interface_name relation in
      if negb (String.eqb actual_relation_interface
                 expected_relation_interface)
      then inl (RelationInterfaceMismatchError relation_name
                  expected_relation_interface actual_relation_interface)
      else
        match expected_relation_role with
        | provides =>
            if negb (has_key relation_name (meta_provides meta))
            then inl (RelationRoleMismatchError relation_name provides
                        requires)
            else inr tt
        | requires =>
            if negb (has_key relation_name (meta_requires meta))
            then inl (RelationRoleMismatchError relation_name requires
                        provides)
            else inr tt
        | peer => inl (UnexpectedRelationDirection expected_relation_role)
        end
  end.

(** [PrometheusRemoteWriteConsumer.__init__]: the object, which keeps the
    relation name, or the exception of the validation. *)
Definition consumer_init (meta : CharmMeta) (relation_name : string)
  : Error + string :=
  match _validate_relation_by_interface_and_direction meta relation_name
          RELATION_INTERFACE_NAME requires with
  | inl e => inl e
  | inr _ => inr relation_name
  end.

(** [PrometheusRemoteWriteProvider.__init__]. *)
Definition provider_init (meta : CharmMeta) (relation_name : string)
  : Error + string :=
  match _validate_relation_by_interface_and_direction meta relation_name
          RELATION_INTERFACE_NAME provides with
  | inl e => inl e
  | inr _ => inr relation_name
  end.

(** A relation as the consumer reads it: its remote units, in the order the
    loop meets them, each with its data bag [relation.data[unit]]. *)
Definition Relation : Type := list (string * gmap string string).

(** The body of the inner loop: the endpoint of one unit, skipped when the
    key is missing or its value is empty. *)
Definition unit_endpoint (data : gmap string string) : list string :=
  match data !! "remote_write_endpoint" with
  | Some endpoint => if String.eqb endpoint "" then [] else [endpoint]
  | None => []
  end.

(** The [endpoints] property. *)
Definition endpoints (relations : list Relation) : list string :=
  flat_map (fun relation => flat_map (fun u => unit_endpoint (snd u)) relation)
    relations.

(** The [configs] property. *)
Definition configs (relations : list Relation) : list Py.value :=
  map (fun endpoint => Py.VDict [("url", Py.VStr endpoint)])
    (endpoints relations).

End RemoteWrite.

(** ** A concrete environment for running the model *)

Module Demo.

(** A flow-style rendering of a document, standing in for [yaml.dump]. *)
Fixpoint render (v : Py.value) : string :=
  match v with
  | Py.VNone => "null"
  | Py.VBool b => if b then "true" else "false"
  | Py.VInt n => Py.str_of_int n
  | Py.VFloat m e => Py.str_of_int m +:+ "p" +:+ Py.str_of_int e
  | Py.VStr s => "'" +:+ s +:+ "'"
  | Py.VList l =>
      "[" +:+ (fix items (l : list Py.value) : string :=
                 match l with
                 | [] => "]"
                 | x :: r => render x +:+ "," +:+ items r
                 end) l
  | Py.VDict d =>
      "{" +:+ (fix entries (d : list (string * Py.value)) : string :=
                 match d with
                 | [] => "}"
                 | (k, x) :: r => k +:+ ":" +:+ render x +:+ "," +:+ entries r
                 end) d
  end.

Definition quote : string := String (ascii_of_nat 34) EmptyString.

(** The JSON text of a list with one endpoint. *)
Definition addrs_payload : string :=
  "[" +:+ quote +:+ "10.0.0.5:9093" +:+ quote +:+ "]".

(** Decodes the two payloads used below. *)
Definition decode (text : string) : option Py.value :=
  if String.eqb text "[]" then Some (Py.VList [])
  else if String.eqb text addrs_payload
       then Some (Py.VList [Py.VStr "10.0.0.5:9093"])
  else None.

#[local] Instance libs : Libs :=
  {| yaml_dump := render;
     md5_hexdigest := string_of_list_byte;
     json_loads := decode;
     py_repr := render |}.

Definition config0 : Config :=
  {| cfg_log_level := None;
     cfg_tsdb_wal_compression := None;
     cfg_tsdb_retention_time := Some "15d";
     cfg_external_labels := None;
     cfg_scrape_interval := Some "1m";
     cfg_scrape_timeout := Some "0s";
     cfg_evaluation_interval := None;
     cfg_port := 9090 |}.

Definition stored0 : Stored :=
  {| stored_alertmanagers := Py.VList [];
     stored_provider_ready := false;
     stored_prometheus_config_hash := None |}.

Definition job1 : Py.value :=
  Py.VDict [("job_name", Py.VStr "peer");
            ("static_configs",
             Py.VList [Py.VDict [("targets",
                                  Py.VList [Py.VStr "10.1.2.3:8080"])]])].

Definition container0 : Container :=
  {| connected := true; files := ∅; layers := []; active := ∅; calls := [] |}.

Definition world0 : World :=
  {| config := config0; stored := stored0; peer_jobs := [job1];
     leader := true; container := container0;
     app_status := None; unit_status := None |}.

(** The document of the sample unit, as [render] writes it. *)
Definition config_text0 : string :=
  Eval vm_compute in
    match _prometheus_config config0 stored0 [job1] with
    | inr text => text
    | inl _ => EmptyString
    end.

(** The same unit before Pebble answers. *)
Definition world_offline : World :=
  with_container (set_connected false container0) world0.

(** The same unit with Prometheus running under an older command line. *)
Definition world_running : World :=
  with_container
    {| connected := true; files := ∅;
       layers :=
         [("prometheus",
           {| layer_summary := "Prometheus layer";
              layer_description := "Pebble layer configuration for Prometheus";
              layer_services :=
                {["prometheus" :=
                    {| svc_override := "replace";
                       svc_summary := "prometheus daemon";
                       svc_command := "/bin/prometheus";
                       svc_startup := "enabled" |}]} |})];
       active := {["prometheus"]}; calls := [] |}
    world0.


(** The same unit as a follower. *)
Definition world_follower : World :=
  {| config := config0; stored := stored0; peer_jobs := [job1];
     leader := false; container := container0;
     app_status := None; unit_status := None |}.

(** The metadata of a charm that requires the remote-write relation. *)
Definition remote_write_relation : RemoteWrite.RelationMeta :=
  {| RemoteWrite.role := RemoteWrite.requires;
     RemoteWrite.interface_name := "prometheus_remote_write" |}.

Definition consumer_meta : RemoteWrite.CharmMeta :=
  {| RemoteWrite.meta_relations :=
       {["prometheus-remote-write" := remote_write_relation]};
     RemoteWrite.meta_provides := ∅;
     RemoteWrite.meta_requires :=
       {["prometheus-remote-write" := remote_write_relation]} |}.

End Demo.

(** ** Observations on runs *)

(** The requests Pebble accepted while [m] ran from [w]. *)
Definition calls_during {A} (m : M A) (w : World) : list Call :=
  drop (length (calls (container w))) (calls (container (run m w))).

Definition is_push (c : Call) : bool :=
  match c with Push _ _ => true | _ => false end.


(** The plan holds nothing but what this charm registers: no layer at all, or
    the single layer labelled [prometheus] with at most the [prometheus]
    service. *)
Definition managed (c : Container) : Prop :=
  layers c = []
  \/ exists l, layers c = [("prometheus", l)]
               /\ dom (layer_services l) ⊆ {["prometheus"]}.

(** The arguments of the command line that set the log level, and those that
    set the retention time. *)
Definition log_level_flags (config : Config) : list string :=
  List.filter (Py.startswith "--log.level") (_cli_args config).

Definition retention_flags (config : Config) : list string :=
  List.filter (Py.startswith "--storage.tsdb.retention.time")
    (_cli_args config).

(** The alerting section for the endpoint list [targets]. *)
Definition alerting_section (targets : list Py.value) : Py.value :=
  Py.VDict
    [("alertmanagers",
      Py.VList
        [Py.VDict
           [("static_configs",
             Py.VList [Py.VDict [("targets", Py.VList targets)]])]])].

(** The statuses [_configure] sets on its way out. *)
Definition set_statuses (w : World) : World :=
  with_unit_status ActiveStatus
    (if leader w then with_app_status ActiveStatus w else w).

(** The world as the next hook finds it, Pebble answering or not. *)
Definition reconnect (b : bool) (w : World) : World :=
  with_container (set_connected b (container w)) w.

(** The container after the restart sequence of [_configure]: the layer is
    added, the service is stopped if it runs, and it is started. *)
Definition replanned (layer : Layer) (c : Container) : Container :=
  let c1 := add_layer_state "prometheus" layer c in
  let c2 := if bool_decide ("prometheus" ∈ active c1)
            then stop_state "prometheus" c1 else c1 in
  start_state "prometheus" c2.

(** The world after the push and the update of the stored fingerprint. *)
Definition pushed `{Libs} (text : string) (w : World) : World :=
  with_stored
    (set_prometheus_config_hash
       (Some (md5_hexdigest (fingerprint_input text))) (stored w))
    (with_container
       (push_state PROMETHEUS_CONFIG (encode_utf8 text) (container w)) w).

(** Nothing is left for [_configure] to do: the document cannot be built, or
    its fingerprint is the stored one and the plan has the services of the
    layer. *)
Definition settled `{Libs} (w : World) : Prop :=
  match _prometheus_config (config w) (stored w) (peer_jobs w) with
  | inl _ => True
  | inr text =>
      stored_prometheus_config_hash (stored w)
      = Some (md5_hexdigest (fingerprint_input text))
      /\ plan_services (container w)
         = layer_services (_prometheus_layer (config w))
  end.

(** [m] keeps the relation [R] between the state it starts from and the
    state it leaves, whether it returns or raises. *)
Definition preserves {A} (R : World -> World -> Prop) (m : M A) : Prop :=
  forall w, R w (fst (m w)).

Definition no_push (extra : list Call) : Prop :=
  Forall (fun k => is_push k = false) extra.

(** What the second half of [_configure] leaves alone: everything but the
    statuses, the layers and the running services; it pushes no file. *)
Definition workload_frame (w w' : World) : Prop :=
  config w' = config w /\ stored w' = stored w
  /\ peer_jobs w' = peer_jobs w /\ leader w' = leader w
  /\ connected (container w') = connected (container w)
  /\ files (container w') = files (container w)
  /\ exists extra, calls (container w') = (calls (container w) ++ extra)%list
                   /\ no_push extra.

(** The readiness flag, once set, is still set. *)
Definition latch_frame (w w' : World) : Prop :=
  stored_provider_ready (stored w) = true ->
  stored_provider_ready (stored w') = true.

(** What a pass never changes: the options, the announced jobs, the
    leadership and the two stored values the document is built from. *)
Definition inputs_frame (w w' : World) : Prop :=
  config w' = config w /\ peer_jobs w' = peer_jobs w
  /\ leader w' = leader w
  /\ stored_alertmanagers (stored w') = stored_alertmanagers (stored w)
  /\ stored_provider_ready (stored w') = stored_provider_ready (stored w).

(** The stored fingerprint, when there is one, is the digest of the file
    that sits at the configuration path. *)
Definition applied_consistent `{Libs} (w : World) : Prop :=
  forall h, stored_prometheus_config_hash (stored w) = Some h ->
  exists data, files (container w) !! PROMETHEUS_CONFIG = Some data
               /\ md5_hexdigest data = h.

(** * Properties *)

(** ** The Python layer *)

Example int_examples :
  Py.int "10" = Some 10 /\ Py.int "-5" = Some (-5) /\ Py.int " 1_0 " = Some 10
  /\ Py.int "" = None /\ Py.int "1__0" = None /\ Py.int "1x" = None
  /\ Py.int "0" = Some 0 /\ Py.int "+7" = Some 7 /\ Py.int "- 7" = None.
Proof. repeat split; reflexivity. Qed.

(** Digits and whitespace outside ASCII: Arabic-Indic twelve, a fullwidth
    seven between a no-break space and an ideographic space, the file
    separator (byte 28) in front of a five, and a superscript two. *)
Example int_unicode_examples :
  Py.int (string_of_list_ascii
            (map ascii_of_nat [217; 161; 217; 162]%nat)) = Some 12
  /\ Py.int (string_of_list_ascii
               (map ascii_of_nat
                  [194; 160; 239; 188; 151; 227; 128; 128]%nat)) = Some 7
  /\ Py.int (string_of_list_ascii (map ascii_of_nat [28; 53]%nat)) = None
  /\ Py.int (string_of_list_ascii (map ascii_of_nat [194; 178]%nat)) = None.
Proof. repeat split; vm_compute; reflexivity. Qed.

Example len_examples :
  Py.len (Py.VStr "15d") = inr 3%nat
  /\ Py.len (Py.VStr (string_of_list_ascii
                        (map ascii_of_nat [217; 161; 100]%nat))) = inr 2%nat.
Proof. repeat split; vm_compute; reflexivity. Qed.

Example str_of_int_examples :
  Py.str_of_int 9090 = "9090" /\ Py.str_of_int 0 = "0"
  /\ Py.str_of_int (-3) = "-3".
Proof. repeat split; vm_compute; reflexivity. Qed.

(** ** Integers as text *)

Lemma digit_val_pretty_char (d : N) :
  (d < 10)%N -> Py.digit_val (pretty_N_char d) = Some (Z.of_N d).
Proof.
  intros Hd.
  assert (Hcases : (d = 0 \/ d = 1 \/ d = 2 \/ d = 3 \/ d = 4 \/ d = 5
                    \/ d = 6 \/ d = 7 \/ d = 8 \/ d = 9)%N) by lia.
  decompose [or] Hcases; subst; reflexivity.
Qed.

Lemma digit_val_range c d :
  Py.digit_val c = Some d ->
  Py.is_space c = false /\ Ascii.eqb c "-" = false /\ Ascii.eqb c "+" = false.
Proof.
  unfold Py.digit_val, Py.is_space. intros Hd.
  destruct ((48 <=? nat_of_ascii c)%nat && (nat_of_ascii c <=? 57)%nat)
    eqn:Hrange; [|discriminate].
  apply andb_prop in Hrange as [Hlo Hhi].
  apply Nat.leb_le in Hlo. apply Nat.leb_le in Hhi.
  split; [|split].
  - apply orb_false_intro;
      [apply andb_false_intro2; apply Nat.leb_gt|apply Nat.eqb_neq]; lia.
  - apply Ascii.eqb_neq. intros ->.
    change (nat_of_ascii "-") with 45%nat in Hlo. lia.
  - apply Ascii.eqb_neq. intros ->.
    change (nat_of_ascii "+") with 43%nat in Hlo. lia.
Qed.

(** A literal that starts with a digit is read as its digits. *)
Lemma int_digit_head c r d :
  Py.digit_val c = Some d ->
  Py.int_ascii (String c r) = Py.int_digits 0 (String c r)
  /\ Py.int_unsigned (String c r) = Py.int_digits 0 (String c r).
Proof.
  intros Hd. destruct (digit_val_range c d Hd) as (Hs & Hm & Hp).
  unfold Py.int_ascii. cbn [Py.lstrip]. rewrite Hs, Hm, Hp.
  cbn [Py.int_unsigned Py.int_digits]. rewrite Hd. auto.
Qed.

(** The digits that [pretty] writes are ASCII: [int] reads them as they
    are. *)
Lemma ascii_form_pretty_char (d : N) s :
  (d < 10)%N ->
  Py.ascii_form (String (pretty_N_char d) s)
  = String (pretty_N_char d) <$> Py.ascii_form s.
Proof.
  intros Hd.
  assert (Hcases : (d = 0 \/ d = 1 \/ d = 2 \/ d = 3 \/ d = 4 \/ d = 5
                    \/ d = 6 \/ d = 7 \/ d = 8 \/ d = 9)%N) by lia.
  decompose [or] Hcases; subst; reflexivity.
Qed.

Lemma ascii_form_pretty_go (x : N) :
  forall s, Py.ascii_form s = Some s ->
  Py.ascii_form (pretty_N_go x s) = Some (pretty_N_go x s).
Proof.
  induction (N.lt_wf_0 x) as [x _ IH]. intros s Hs.
  destruct (decide (x = 0%N)) as [->|Hx].
  - now rewrite pretty_N_go_0.
  - rewrite pretty_N_go_step by lia.
    apply IH; [apply N.div_lt; lia|].
    rewrite ascii_form_pretty_char by (apply N.mod_lt; lia).
    now rewrite Hs.
Qed.

Lemma ascii_form_pretty_positive (p : positive) :
  Py.ascii_form (pretty p) = Some (pretty p).
Proof.
  unfold pretty, pretty_positive, pretty, pretty_N.
  destruct (decide (N.pos p = 0%N)) as [Hz|_]; [discriminate|].
  now apply ascii_form_pretty_go.
Qed.

(** Reading the digits that [pretty] writes in front of [s]. *)
Lemma int_digits_pretty_go (x : N) :
  forall s, exists k,
    0 <= k /\ forall acc,
      Py.int_digits acc (pretty_N_go x s)
      = Py.int_digits (acc * 10 ^ k + Z.of_N x) s.
Proof.
  induction (N.lt_wf_0 x) as [x _ IH]. intros s.
  destruct (decide (x = 0%N)) as [->|Hx].
  - exists 0. split; [lia|]. intros acc. rewrite pretty_N_go_0.
    f_equal. lia.
  - rewrite pretty_N_go_step by lia.
    destruct (IH (x `div` 10)%N
                (N.div_lt x 10 ltac:(lia) ltac:(lia))
                (String (pretty_N_char (x `mod` 10)) s)) as (k & Hk & Hgo).
    exists (k + 1). split; [lia|]. intros acc. rewrite Hgo.
    cbn [Py.int_digits].
    rewrite digit_val_pretty_char by (apply N.mod_lt; lia).
    f_equal. rewrite Z.pow_add_r by lia.
    pose proof (N.div_mod x 10 ltac:(lia)) as Hdm.
    assert (Z.of_N x = 10 * Z.of_N (x `div` 10) + Z.of_N (x `mod` 10)) by lia.
    lia.
Qed.

Lemma pretty_go_digit_head (x : N) :
  forall s, (0 < x)%N ->
  exists c r d, pretty_N_go x s = String c r /\ Py.digit_val c = Some d.
Proof.
  induction (N.lt_wf_0 x) as [x _ IH]. intros s Hx.
  rewrite pretty_N_go_step by lia.
  destruct (decide (x `div` 10 = 0)%N) as [Hz|Hz].
  - rewrite Hz, pretty_N_go_0. do 3 eexists. split; [reflexivity|].
    apply digit_val_pretty_char, N.mod_lt. lia.
  - apply IH; [apply N.div_lt; lia|]. now apply N.neq_0_lt_0.
Qed.

Lemma int_pretty_positive (p : positive) :
  Py.int (pretty p) = Some (Zpos p)
  /\ Py.int_unsigned (pretty p) = Some (Zpos p).
Proof.
  unfold Py.int. rewrite ascii_form_pretty_positive.
  unfold pretty, pretty_positive, pretty, pretty_N.
  destruct (decide (N.pos p = 0%N)) as [Hz|_]; [discriminate|].
  destruct (pretty_go_digit_head (N.pos p) "" ltac:(lia))
    as (c & r & d & Heq & Hd).
  destruct (int_digits_pretty_go (N.pos p) "") as (k & _ & Hgo).
  rewrite Heq. destruct (int_digit_head c r d Hd) as [-> ->].
  rewrite <- Heq, Hgo. cbn [Py.int_digits]. split; f_equal; lia.
Qed.

(** [int(str(n)) == n]. *)
Lemma int_str_of_int (n : Z) : Py.int (Py.str_of_int n) = Some n.
Proof.
  unfold Py.str_of_int, pretty, pretty_Z. destruct n as [|p|p].
  - reflexivity.
  - apply int_pretty_positive.
  - change ("-" +:+ pretty p) with (String "-" (pretty p)).
    unfold Py.int.
    change (Py.ascii_form (String "-" (pretty p)))
      with (String "-" <$> Py.ascii_form (pretty p)).
    rewrite ascii_form_pretty_positive. cbn [fmap option_fmap option_map].
    unfold Py.int_ascii. cbn [Py.lstrip].
    change (Py.is_space "-") with false. cbn iota.
    change (Ascii.eqb "-" "-") with true. cbn iota.
    rewrite (proj2 (int_pretty_positive p)). reflexivity.
Qed.

Lemma dict_get_set_ne k k' v d :
  k <> k' -> Py.dict_get k (Py.dict_set k' v d) = Py.dict_get k d.
Proof.
  intros Hne. induction d as [|[k0 v0] d IH]; simpl.
  - destruct (String.eqb_spec k' k); congruence.
  - destruct (String.eqb_spec k0 k'); simpl.
    + subst k0. destruct (String.eqb_spec k' k); congruence.
    + destruct (String.eqb_spec k0 k); auto.
Qed.

Lemma dict_get_set_eq k v d : Py.dict_get k (Py.dict_set k v d) = Some v.
Proof.
  induction d as [|[k0 v0] d IH]; simpl.
  - now rewrite String.eqb_refl.
  - destruct (String.eqb_spec k0 k) as [->|Hne]; simpl.
    + now rewrite String.eqb_refl.
    + destruct (String.eqb_spec k0 k); congruence.
Qed.

Lemma dict_get_list_append_ne k k' x d :
  k <> k' -> Py.dict_get k (dict_list_append k' x d) = Py.dict_get k d.
Proof.
  intros Hne. induction d as [|[k0 v0] d IH]; simpl; [reflexivity|].
  destruct (String.eqb_spec k0 k') as [->|Hne'].
  - destruct v0; simpl; destruct (String.eqb_spec k' k); congruence.
  - simpl. destruct (String.eqb_spec k0 k); auto.
Qed.

Lemma dict_get_list_append_eq k x d l :
  Py.dict_get k d = Some (Py.VList l) ->
  Py.dict_get k (dict_list_append k x d) = Some (Py.VList (l ++ [x])).
Proof.
  induction d as [|[k0 v0] d IH]; simpl; [discriminate|].
  destruct (String.eqb_spec k0 k) as [->|Hne]; intros Hget.
  - injection Hget as ->. simpl. now rewrite String.eqb_refl.
  - simpl. destruct (String.eqb_spec k0 k); [congruence|auto].
Qed.

Lemma dict_get_fold_append_ne k k' jobs d :
  k <> k' ->
  Py.dict_get k (fold_left (fun d job => dict_list_append k' job d) jobs d)
  = Py.dict_get k d.
Proof.
  intros Hne. revert d.
  induction jobs as [|j jobs IH]; intros d; simpl; [reflexivity|].
  rewrite IH. now apply dict_get_list_append_ne.
Qed.

Lemma dict_get_fold_append_eq k jobs d l :
  Py.dict_get k d = Some (Py.VList l) ->
  Py.dict_get k (fold_left (fun d job => dict_list_append k job d) jobs d)
  = Some (Py.VList (l ++ jobs)).
Proof.
  revert d l. induction jobs as [|j jobs IH]; intros d l Hget; simpl.
  - now rewrite app_nil_r.
  - rewrite (IH _ (l ++ [j])%list).
    + now rewrite <- app_assoc.
    + now apply dict_get_list_append_eq.
Qed.

(** ** Time spans and the command line *)

Lemma set_timespec_rejected key o d :
  _is_valid_timespec (opt_value o) = false -> set_timespec key o d = d.
Proof. intros Hrej. unfold set_timespec. rewrite Hrej. now rewrite andb_false_r. Qed.

Lemma set_timespec_other key key' o d :
  key' <> key ->
  Py.dict_get key' (set_timespec key o d) = Py.dict_get key' d.
Proof.
  intros Hne. unfold set_timespec.
  destruct (_ && _); [now apply dict_get_set_ne|reflexivity].
Qed.

Lemma retention_flags_spec config :
  retention_flags config =
    if opt_truthy (cfg_tsdb_retention_time config)
       && _is_valid_timespec (opt_value (cfg_tsdb_retention_time config))
    then ["--storage.tsdb.retention.time="
            +:+ opt_value (cfg_tsdb_retention_time config)]
    else [].
Proof.
  unfold retention_flags, _cli_args.
  destruct (default false (cfg_tsdb_wal_compression config));
    destruct (_ && _); rewrite ?List.filter_app; reflexivity.
Qed.

Lemma global_config_base `{Libs} config key :
  key <> "external_labels" ->
  Py.dict_get key
    (if Py.truthy (Py.VDict (_external_labels config))
     then Py.dict_set "external_labels" (Py.VDict (_external_labels config)) []
     else []) = None.
Proof.
  intros Hne. destruct (Py.truthy _); [|reflexivity].
  rewrite dict_get_set_ne by assumption. reflexivity.
Qed.

Lemma global_scrape_interval_rejected `{Libs} config :
  _is_valid_timespec (opt_value (cfg_scrape_interval config)) = false ->
  Py.dict_get "scrape_interval" (_prometheus_global_config config) = None.
Proof.
  intros Hrej. unfold _prometheus_global_config.
  rewrite !set_timespec_other by discriminate.
  rewrite set_timespec_rejected by assumption.
  apply global_config_base. discriminate.
Qed.

Lemma global_scrape_timeout_rejected `{Libs} config :
  _is_valid_timespec (opt_value (cfg_scrape_timeout config)) = false ->
  Py.dict_get "scrape_timeout" (_prometheus_global_config config) = None.
Proof.
  intros Hrej. unfold _prometheus_global_config.
  rewrite set_timespec_other by discriminate.
  rewrite set_timespec_rejected by assumption.
  rewrite set_timespec_other by discriminate.
  apply global_config_base. discriminate.
Qed.

Lemma global_evaluation_interval_rejected `{Libs} config :
  _is_valid_timespec (opt_value (cfg_evaluation_interval config)) = false ->
  Py.dict_get "evaluation_interval" (_prometheus_global_config config) = None.
Proof.
  intros Hrej. unfold _prometheus_global_config.
  rewrite set_timespec_rejected by assumption.
  rewrite !set_timespec_other by discriminate.
  apply global_config_base. discriminate.
Qed.

Lemma alerting_config_sized stored n :
  Py.len (stored_alertmanagers stored) = inr n ->
  exists a, _alerting_config stored = inr a.
Proof.
  intros Hlen. unfold _alerting_config. rewrite Hlen.
  destruct (n <? 1)%nat; eauto.
Qed.

Lemma prometheus_config_sized `{Libs} config stored jobs n :
  Py.len (stored_alertmanagers stored) = inr n ->
  exists doc, scrape_config_doc config stored jobs = inr doc
              /\ _prometheus_config config stored jobs
                 = inr (yaml_dump (Py.VDict doc)).
Proof.
  intros Hlen. destruct (alerting_config_sized _ _ Hlen) as [a Ha].
  unfold _prometheus_config, scrape_config_doc. rewrite Ha. eauto.
Qed.

(** C6. The time-span validator accepts "10s", "2h" and "1y" and rejects "0s",
    "-5m", "10x" and the empty string, as a plain [False].  A rejected
    retention time yields no retention flag on the command line, a rejected
    scrape interval, scrape timeout or evaluation interval yields no such key
    in the global section, and whatever the time spans are the document is
    still produced. *)
Theorem timespec_validation `{Libs} :
  (_is_valid_timespec "10s" = true /\ _is_valid_timespec "2h" = true
   /\ _is_valid_timespec "1y" = true)
  /\ (_is_valid_timespec "0s" = false /\ _is_valid_timespec "-5m" = false
      /\ _is_valid_timespec "10x" = false /\ _is_valid_timespec "" = false)
  /\ (forall config,
        _is_valid_timespec (opt_value (cfg_tsdb_retention_time config)) = false ->
        retention_flags config = [])
  /\ (forall config,
        _is_valid_timespec (opt_value (cfg_scrape_interval config)) = false ->
        Py.dict_get "scrape_interval" (_prometheus_global_config config) = None)
  /\ (forall config,
        _is_valid_timespec (opt_value (cfg_scrape_timeout config)) = false ->
        Py.dict_get "scrape_timeout" (_prometheus_global_config config) = None)
  /\ (forall config,
        _is_valid_timespec (opt_value (cfg_evaluation_interval config)) = false ->
        Py.dict_get "evaluation_interval" (_prometheus_global_config config)
        = None)
  /\ (forall config stored jobs n,
        Py.len (stored_alertmanagers stored) = inr n ->
        exists text, _prometheus_config config stored jobs = inr text).
Proof.
  split; [repeat split; reflexivity|].
  split; [repeat split; reflexivity|].
  split.
  { intros config Hrej. rewrite retention_flags_spec, Hrej.
    now rewrite andb_false_r. }
  split; [exact global_scrape_interval_rejected|].
  split; [exact global_scrape_timeout_rejected|].
  split; [exact global_evaluation_interval_rejected|].
  intros config stored jobs n Hlen.
  destruct (prometheus_config_sized config stored jobs n Hlen) as (doc & _ & E).
  eauto.
Qed.

(** The rejected scrape timeout "0s" of the sample configuration, and a
    rejected retention time "15x". *)
Lemma timespec_validation_witness :
  Py.dict_get "scrape_timeout"
    (@_prometheus_global_config Demo.libs Demo.config0) = None
  /\ retention_flags
       {| cfg_log_level := None; cfg_tsdb_wal_compression := Some true;
          cfg_tsdb_retention_time := Some "15x"; cfg_external_labels := None;
          cfg_scrape_interval := None; cfg_scrape_timeout := None;
          cfg_evaluation_interval := None; cfg_port := 9090 |} = [].
Proof.
  destruct (@timespec_validation Demo.libs)
    as (_ & _ & Hret & _ & Htimeout & _).
  split.
  - apply Htimeout. reflexivity.
  - apply Hret. reflexivity.
Defined.

Lemma existsb_eqb_In s l : existsb (String.eqb s) l = true <-> In s l.
Proof.
  rewrite existsb_exists. split.
  - intros (x & Hin & Heq). apply String.eqb_eq in Heq. now subst.
  - intros Hin. exists s. split; [assumption|apply String.eqb_refl].
Qed.

Lemma log_level_flags_spec config :
  log_level_flags config = ["--log.level=" +:+ effective_log_level config].
Proof.
  unfold log_level_flags, _cli_args.
  destruct (default false (cfg_tsdb_wal_compression config));
    destruct (_ && _); rewrite ?List.filter_app; reflexivity.
Qed.

Lemma effective_log_level_set config s :
  cfg_log_level config = Some s -> s <> "" ->
  effective_log_level config =
    if negb (existsb (String.eqb (Py.lower s)) allowed_log_levels)
    then "debug" else Py.lower s.
Proof.
  intros Hs Hne. unfold effective_log_level, opt_truthy, opt_value.
  rewrite Hs. destruct (String.eqb_spec s ""); [contradiction|reflexivity].
Qed.

(** C7. The command line carries exactly one [--log.level] flag.  Its value is
    the lowercased configured level when that is one of debug, info, warn,
    error, fatal; it is "info" when no level is configured (unset or empty);
    it is "debug" when the configured level is not an allowed one. *)
Theorem log_level_flag config :
  log_level_flags config = ["--log.level=" +:+ effective_log_level config]
  /\ (forall s, cfg_log_level config = Some s -> s <> "" ->
        In (Py.lower s) allowed_log_levels ->
        effective_log_level config = Py.lower s)
  /\ (opt_truthy (cfg_log_level config) = false ->
      effective_log_level config = "info")
  /\ (forall s, cfg_log_level config = Some s -> s <> "" ->
        ~ In (Py.lower s) allowed_log_levels ->
        effective_log_level config = "debug").
Proof.
  split; [apply log_level_flags_spec|].
  repeat split.
  - intros s Hs Hne Hin. rewrite (effective_log_level_set _ _ Hs Hne).
    apply existsb_eqb_In in Hin. now rewrite Hin.
  - intros Hunset. unfold effective_log_level. rewrite Hunset. reflexivity.
  - intros s Hs Hne Hnotin. rewrite (effective_log_level_set _ _ Hs Hne).
    destruct (existsb _ _) eqn:E; [|reflexivity].
    apply existsb_eqb_In in E. contradiction.
Qed.

(** Mixed case "WARN" is passed lowercased, "verbose" falls back to debug. *)
Lemma log_level_flag_witness :
  log_level_flags
    {| cfg_log_level := Some "WARN"; cfg_tsdb_wal_compression := None;
       cfg_tsdb_retention_time := None; cfg_external_labels := None;
       cfg_scrape_interval := None; cfg_scrape_timeout := None;
       cfg_evaluation_interval := None; cfg_port := 9090 |}
  = ["--log.level=warn"]
  /\ effective_log_level
       {| cfg_log_level := Some "verbose"; cfg_tsdb_wal_compression := None;
          cfg_tsdb_retention_time := None; cfg_external_labels := None;
          cfg_scrape_interval := None; cfg_scrape_timeout := None;
          cfg_evaluation_interval := None; cfg_port := 9090 |} = "debug".
Proof.
  split.
  - apply log_level_flag.
  - eapply (proj2 (proj2 (proj2 (log_level_flag _)))).
    + reflexivity.
    + discriminate.
    + simpl. intros Hin. decompose [or] Hin; discriminate || assumption.
Defined.

(** ** The configuration document *)

Lemma scrape_config_doc_sized `{Libs} config stored jobs n :
  Py.len (stored_alertmanagers stored) = inr n ->
  exists a,
    _alerting_config stored = inr a
    /\ scrape_config_doc config stored jobs =
       inr (let d0 := [("global", Py.VDict (_prometheus_global_config config));
                       ("scrape_configs", Py.VList [])] in
            let d1 := if Py.truthy a then Py.dict_set "alerting" a d0 else d0 in
            let d2 := dict_list_append "scrape_configs" (default_config config)
                        d1 in
            if stored_provider_ready stored
            then fold_left
                   (fun d job => dict_list_append "scrape_configs" job d)
                   jobs d2
            else d2).
Proof.
  intros Hlen. destruct (alerting_config_sized _ _ Hlen) as [a Ha].
  exists a. split; [assumption|].
  unfold scrape_config_doc. rewrite Ha. reflexivity.
Qed.

Lemma alerting_config_list stored targets :
  stored_alertmanagers stored = Py.VList targets ->
  _alerting_config stored =
    inr (match targets with
         | [] => Py.VStr ""
         | _ => alerting_section targets
         end).
Proof.
  intros Hs. unfold _alerting_config. rewrite Hs.
  destruct targets; reflexivity.
Qed.

(** C4. With an empty stored endpoint list the document has no [alerting]
    key; with a non-empty one its [alerting] section is the single
    [alertmanagers] entry whose [static_configs] targets are the stored
    list. *)
Theorem alerting_section_presence `{Libs} config stored jobs targets :
  stored_alertmanagers stored = Py.VList targets ->
  exists doc,
    scrape_config_doc config stored jobs = inr doc
    /\ _prometheus_config config stored jobs = inr (yaml_dump (Py.VDict doc))
    /\ Py.dict_get "alerting" doc =
       match targets with
       | [] => None
       | _ => Some (alerting_section targets)
       end.
Proof.
  intros Hs.
  assert (Hlen : Py.len (stored_alertmanagers stored) = inr (length targets))
    by now rewrite Hs.
  destruct (scrape_config_doc_sized config stored jobs _ Hlen)
    as (a & Ha & Hdoc).
  rewrite (alerting_config_list _ _ Hs) in Ha. injection Ha as <-.
  eexists. split; [exact Hdoc|].
  split; [unfold _prometheus_config; now rewrite Hdoc|].
  cbv zeta.
  assert (Hget : forall d,
    Py.dict_get "alerting"
      (if stored_provider_ready stored
       then fold_left (fun d job => dict_list_append "scrape_configs" job d)
              jobs (dict_list_append "scrape_configs" (default_config config) d)
       else dict_list_append "scrape_configs" (default_config config) d)
    = Py.dict_get "alerting" d).
  { intros d. destruct (stored_provider_ready stored);
      rewrite ?dict_get_fold_append_ne by discriminate;
      now rewrite dict_get_list_append_ne by discriminate. }
  rewrite Hget. destruct targets; reflexivity.
Qed.

(** One announced endpoint, then none. *)
Lemma alerting_section_presence_witness :
  (exists doc,
     @scrape_config_doc Demo.libs Demo.config0
       (set_alertmanagers (Py.VList [Py.VStr "10.0.0.5:9093"]) Demo.stored0)
       [] = inr doc
     /\ Py.dict_get "alerting" doc
        = Some (alerting_section [Py.VStr "10.0.0.5:9093"]))
  /\ (exists doc,
        @scrape_config_doc Demo.libs Demo.config0 Demo.stored0 [] = inr doc
        /\ Py.dict_get "alerting" doc = None).
Proof.
  split.
  - destruct (@alerting_section_presence Demo.libs Demo.config0
                (set_alertmanagers (Py.VList [Py.VStr "10.0.0.5:9093"])
                   Demo.stored0) [] [Py.VStr "10.0.0.5:9093"] eq_refl)
      as (doc & Hdoc & _ & Hget).
    exists doc. split; assumption.
  - destruct (@alerting_section_presence Demo.libs Demo.config0 Demo.stored0
                [] [] eq_refl) as (doc & Hdoc & _ & Hget).
    exists doc. split; assumption.
Defined.

(** C5, as the code has it.  The first element of [scrape_configs] is the
    self-monitoring job (job name "prometheus", 5s interval and timeout,
    metrics path "/metrics", honoured timestamps, scheme http, the single
    static target [localhost:<port>]).  The peer-supplied jobs follow it in
    snapshot order when the stored readiness flag is set; when it is not set
    the self-monitoring job is the only element. *)
Theorem scrape_configs_order `{Libs} config stored jobs n :
  Py.len (stored_alertmanagers stored) = inr n ->
  exists doc,
    scrape_config_doc config stored jobs = inr doc
    /\ _prometheus_config config stored jobs = inr (yaml_dump (Py.VDict doc))
    /\ Py.dict_get "scrape_configs" doc =
       Some (Py.VList
               (Py.VDict
                  [ ("job_name", Py.VStr "prometheus");
                    ("scrape_interval", Py.VStr "5s");
                    ("scrape_timeout", Py.VStr "5s");
                    ("metrics_path", Py.VStr "/metrics");
                    ("honor_timestamps", Py.VBool true);
                    ("scheme", Py.VStr "http");
                    ("static_configs",
                     Py.VList
                       [Py.VDict
                          [("targets",
                            Py.VList
                              [Py.VStr ("localhost:"
                                        +:+ Py.str_of_int (cfg_port config))])]])
                  ]
                :: (if stored_provider_ready stored then jobs else []))).
Proof.
  intros Hlen.
  destruct (scrape_config_doc_sized config stored jobs _ Hlen)
    as (a & Ha & Hdoc).
  eexists. split; [exact Hdoc|].
  split; [unfold _prometheus_config; now rewrite Hdoc|].
  cbv zeta.
  assert (Hbase :
    Py.dict_get "scrape_configs"
      (dict_list_append "scrape_configs" (default_config config)
         (if Py.truthy a
          then Py.dict_set "alerting" a
                 [("global", Py.VDict (_prometheus_global_config config));
                  ("scrape_configs", Py.VList [])]
          else [("global", Py.VDict (_prometheus_global_config config));
                ("scrape_configs", Py.VList [])]))
    = Some (Py.VList ([] ++ [default_config config]))).
  { apply dict_get_list_append_eq. destruct (Py.truthy a); reflexivity. }
  destruct (stored_provider_ready stored).
  - rewrite (dict_get_fold_append_eq _ _ _ _ Hbase). reflexivity.
  - rewrite Hbase. reflexivity.
Qed.

(** A ready unit with one peer job. *)
Lemma scrape_configs_order_witness :
  exists doc,
    @scrape_config_doc Demo.libs Demo.config0
      (set_provider_ready true Demo.stored0) [Demo.job1] = inr doc
    /\ Py.dict_get "scrape_configs" doc
       = Some (Py.VList [default_config Demo.config0; Demo.job1]).
Proof.
  destruct (@scrape_configs_order Demo.libs Demo.config0
              (set_provider_ready true Demo.stored0) [Demo.job1] 0%nat eq_refl)
    as (doc & Hdoc & _ & Hget).
  exists doc. split; [exact Hdoc|exact Hget].
Defined.

(** C5, as stated, fails before the readiness flag is set: the peer job
    [Demo.job1] is in the snapshot and the document lists the self-monitoring
    job alone. *)
Lemma peer_jobs_left_out_before_readiness :
  stored_provider_ready Demo.stored0 = false
  /\ exists doc,
       @scrape_config_doc Demo.libs Demo.config0 Demo.stored0 [Demo.job1]
       = inr doc
       /\ Py.dict_get "scrape_configs" doc
          = Some (Py.VList [default_config Demo.config0]).
Proof.
  split; [reflexivity|].
  eexists. split; reflexivity.
Qed.

(** ** The remote-write endpoint *)

Lemma normalize_path_cases path :
  (path = "" -> RemoteWrite.normalize_path path = "")
  /\ (path <> "" -> Py.startswith "/" path = true ->
      RemoteWrite.normalize_path path = path)
  /\ (path <> "" -> Py.startswith "/" path = false ->
      RemoteWrite.normalize_path path = "/" +:+ path).
Proof.
  unfold RemoteWrite.normalize_path. repeat split.
  - intros ->. reflexivity.
  - intros Hne Hp. destruct (String.eqb_spec path ""); [contradiction|].
    simpl. now rewrite Hp.
  - intros Hne Hp. destruct (String.eqb_spec path ""); [contradiction|].
    simpl. now rewrite Hp.
Qed.

(** C9. [set_endpoint] writes the URL [{schema}://{address}:{port}{path}] to
    the data bag of every relation, under the key [remote_write_endpoint],
    and leaves the other keys alone.  The address is the given one, or the
    binding's address when none or an empty one is given; the port is the
    given text, or the decimal text of the given integer (which reads back
    as that integer); the path is empty when the given path is empty,
    unchanged when it starts with a slash, and prefixed with a slash
    otherwise, so that a non-empty path always starts with a slash. *)
Theorem set_endpoint_url schema address port path bind_address relations :
  let host := match address with
              | Some a => if String.eqb a "" then bind_address else a
              | None => bind_address
              end in
  let port_text := match port with
                   | RemoteWrite.PortStr s => s
                   | RemoteWrite.PortInt n => Py.str_of_int n
                   end in
  let path_text := match path with
                   | EmptyString => ""
                   | String c _ =>
                       if Ascii.eqb c "/" then path else "/" +:+ path
                   end in
  let url := schema +:+ "://" +:+ host +:+ ":" +:+ port_text +:+ path_text in
  let published :=
    RemoteWrite.set_endpoint schema address port path bind_address relations in
  published = map (fun data => <["remote_write_endpoint" := url]> data) relations
  /\ Forall (fun data => data !! "remote_write_endpoint" = Some url) published
  /\ length published = length relations
  /\ (forall n, port = RemoteWrite.PortInt n -> Py.int port_text = Some n)
  /\ (path = "" -> path_text = "")
  /\ (path <> "" -> Py.startswith "/" path = true -> path_text = path)
  /\ (path <> "" -> Py.startswith "/" path = false ->
      path_text = "/" +:+ path)
  /\ (path <> "" -> Py.startswith "/" path_text = true).
Proof.
  intros host port_text path_text url published.
  assert (Hhost : RemoteWrite.effective_address address bind_address = host).
  { unfold RemoteWrite.effective_address, host.
    destruct address as [a|]; [|reflexivity]. cbn.
    destruct (String.eqb a ""); reflexivity. }
  assert (Hport : RemoteWrite.str_of_port port = port_text)
    by (destruct port; reflexivity).
  assert (Hslash : forall c r,
             Py.startswith "/" (String c r) = Ascii.eqb c "/").
  { intros c r. unfold Py.startswith. cbn [String.prefix].
    destruct (ascii_dec "/" c) as [<-|Hne].
    - now destruct r.
    - symmetry. apply Ascii.eqb_neq. congruence. }
  assert (Hpath : RemoteWrite.normalize_path path = path_text).
  { unfold RemoteWrite.normalize_path, path_text.
    destruct path as [|c r]; [reflexivity|].
    rewrite Hslash. cbn [String.eqb negb]. reflexivity. }
  assert (Hurl : RemoteWrite.endpoint_url schema address port path bind_address
                 = url).
  { unfold RemoteWrite.endpoint_url, url. now rewrite Hhost, Hport, Hpath. }
  assert (Hpub : published
                 = map (fun data => <["remote_write_endpoint" := url]> data)
                     relations).
  { unfold published, RemoteWrite.set_endpoint. cbv zeta. now rewrite Hurl. }
  split; [exact Hpub|].
  split.
  { rewrite Hpub. apply List.Forall_forall.
    intros data Hin. apply in_map_iff in Hin as (d & <- & _).
    apply lookup_insert_eq. }
  split; [rewrite Hpub; apply length_map|].
  split.
  { intros n ->. apply int_str_of_int. }
  destruct path as [|c r].
  - repeat split; auto; intros Hne; now contradiction Hne.
  - subst path_text. rewrite Hslash.
    destruct (Ascii.eqb c "/") eqn:Hc.
    + repeat split; auto; try discriminate. intros _. now rewrite Hslash.
    + repeat split; auto; discriminate.
Qed.

(** No address and an integer port: the binding's address and the decimal
    text of the port are published, and the relative path gains its slash. *)
Lemma set_endpoint_url_witness :
  RemoteWrite.set_endpoint "http" None (RemoteWrite.PortInt 9090)
    "api/v1/write" "192.168.0.1" [∅]
  = [<["remote_write_endpoint" := "http://192.168.0.1:9090/api/v1/write"]> ∅]
  /\ Py.int "9090" = Some 9090
  /\ Py.startswith "/" "/api/v1/write" = true.
Proof.
  destruct (set_endpoint_url "http" None (RemoteWrite.PortInt 9090)
              "api/v1/write" "192.168.0.1" [∅])
    as (Hpub & _ & _ & Hport & _ & _ & _ & Hslash).
  split; [exact Hpub|].
  split; [exact (Hport 9090 eq_refl)|].
  apply Hslash. discriminate.
Defined.

(** ** Reasoning about methods *)

Section Preservation.
Context (R : World -> World -> Prop) `{!PreOrder R}.

Lemma preserves_ret {A} (a : A) : preserves R (ret a).
Proof. intros w. reflexivity. Qed.

Lemma preserves_raise {A} e : preserves R (@raise A e).
Proof. intros w. reflexivity. Qed.

Lemma preserves_gets {A} (f : World -> A) : preserves R (gets f).
Proof. intros w. reflexivity. Qed.

Lemma preserves_query {A} (f : Container -> Py.exn + A) :
  preserves R (query f).
Proof. intros w. reflexivity. Qed.

Lemma preserves_pure {A} (f : World -> Py.exn + A) :
  preserves R (fun w => (w, f w)).
Proof. intros w. reflexivity. Qed.

Lemma preserves_bind {A B} (m : M A) (k : A -> M B) :
  preserves R m -> (forall a, preserves R (k a)) -> preserves R (bind m k).
Proof.
  intros Hm Hk w. unfold bind. specialize (Hm w).
  destruct (m w) as [w' [e|a]]; [exact Hm|].
  etransitivity; [exact Hm|apply Hk].
Qed.

Lemma preserves_when b (m : M unit) : preserves R m -> preserves R (when b m).
Proof. intros Hm. destruct b; [exact Hm|apply preserves_ret]. Qed.

Lemma preserves_try_except {A} (m : M A) e (h : M A) :
  preserves R m -> preserves R h -> preserves R (try_except m e h).
Proof.
  intros Hm Hh w. unfold try_except. specialize (Hm w).
  destruct (m w) as [w' [e'|a]]; [|exact Hm].
  destruct (decide (e' = e)); [|exact Hm].
  etransitivity; [exact Hm|apply Hh].
Qed.

Lemma preserves_modify (f : World -> World) :
  (forall w, R w (f w)) -> preserves R (modify f).
Proof. intros Hf w. apply Hf. Qed.

Lemma preserves_request (f : Container -> Py.exn + Container) :
  (forall w c, f (container w) = inr c -> R w (with_container c w)) ->
  preserves R (request f).
Proof.
  intros Hf w. unfold request.
  destruct (f (container w)) as [e|c] eqn:E; [reflexivity|].
  now apply Hf.
Qed.

End Preservation.

Lemma preserves_weaken {A} (R R' : World -> World -> Prop) (m : M A) :
  (forall w w', R w w' -> R' w w') -> preserves R m -> preserves R' m.
Proof. intros Hsub Hm w. apply Hsub, Hm. Qed.

#[local] Instance workload_frame_preorder : PreOrder workload_frame.
Proof.
  split.
  - intros w. repeat split. exists []. split; [now rewrite app_nil_r|constructor].
  - intros w1 w2 w3 (C1 & S1 & J1 & L1 & N1 & F1 & x1 & E1 & P1)
      (C2 & S2 & J2 & L2 & N2 & F2 & x2 & E2 & P2).
    repeat split; try congruence.
    exists (x1 ++ x2)%list. split.
    + rewrite E2, E1. now rewrite <- app_assoc.
    + apply Forall_app. split; assumption.
Qed.

#[local] Instance latch_frame_preorder : PreOrder latch_frame.
Proof.
  split.
  - intros w Hw. exact Hw.
  - intros w1 w2 w3 H12 H23 Hw. apply H23, H12, Hw.
Qed.

Lemma workload_frame_logged w c k :
  connected c = connected (container w) -> files c = files (container w) ->
  calls c = calls (container w) -> is_push k = false ->
  workload_frame w (with_container (log_call k c) w).
Proof.
  intros Hn Hf Hc Hk. repeat split; try assumption.
  exists [k]. split; [cbn; now rewrite Hc|]. repeat constructor. exact Hk.
Qed.

Lemma workload_frame_statuses_app w :
  workload_frame w (with_app_status ActiveStatus w).
Proof.
  repeat split. exists []. split; [now rewrite app_nil_r|constructor].
Qed.

Lemma workload_frame_statuses_unit w :
  workload_frame w (with_unit_status ActiveStatus w).
Proof.
  repeat split. exists []. split; [now rewrite app_nil_r|constructor].
Qed.

Lemma calls_during_app {A} (m : M A) w extra :
  calls (container (run m w)) = (calls (container w) ++ extra)%list ->
  calls_during m w = extra.
Proof. intros E. unfold calls_during. rewrite E. apply drop_app_length. Qed.

Lemma calls_during_same {A} (m : M A) w :
  calls (container (run m w)) = calls (container w) -> calls_during m w = [].
Proof.
  intros E. apply calls_during_app. rewrite E. now rewrite app_nil_r.
Qed.

Section Configure.
Context `{Libs}.

Lemma setup_workload_frame : preserves workload_frame setup_workload.
Proof.
  unfold setup_workload.
  repeat first
    [ apply preserves_bind; [typeclasses eauto| |intros ?]
    | apply preserves_when; [typeclasses eauto|]
    | apply preserves_gets; typeclasses eauto
    | apply preserves_query; typeclasses eauto ].
  - apply preserves_request; [typeclasses eauto|].
    intros w c Hc. unfold pebble_add_layer in Hc.
    destruct (connected (container w)) eqn:Hconn; [|discriminate].
    destruct (valid_layer a); [|discriminate].
    injection Hc as <-. apply workload_frame_logged; cbn; congruence.
  - apply preserves_request; [typeclasses eauto|].
    intros w c Hc. unfold pebble_stop in Hc.
    destruct (connected (container w)) eqn:Hconn; [|discriminate].
    destruct (plan_services (container w) !! "prometheus"); [|discriminate].
    injection Hc as <-. apply workload_frame_logged; cbn; congruence.
  - apply preserves_request; [typeclasses eauto|].
    intros w c Hc. unfold pebble_start in Hc.
    destruct (connected (container w)) eqn:Hconn; [|discriminate].
    destruct (plan_services (container w) !! "prometheus"); [|discriminate].
    injection Hc as <-. apply workload_frame_logged; cbn; congruence.
  - apply preserves_modify, workload_frame_statuses_app.
  - apply preserves_modify, workload_frame_statuses_unit.
Qed.

(** The four ways through the first half of [_configure]. *)

Lemma configure_synthesis_error w e :
  _prometheus_config (config w) (stored w) (peer_jobs w) = inl e ->
  _configure w = (w, inl e).
Proof. intros E. unfold _configure, bind. rewrite E. reflexivity. Qed.

Lemma configure_unchanged w text :
  _prometheus_config (config w) (stored w) (peer_jobs w) = inr text ->
  stored_prometheus_config_hash (stored w)
  = Some (md5_hexdigest (fingerprint_input text)) ->
  _configure w = setup_workload w.
Proof.
  intros E Hh. unfold _configure, bind. rewrite E. unfold gets.
  case_bool_decide as Hd; [contradiction|]. reflexivity.
Qed.

Lemma configure_push_refused w text :
  _prometheus_config (config w) (stored w) (peer_jobs w) = inr text ->
  stored_prometheus_config_hash (stored w)
  <> Some (md5_hexdigest (fingerprint_input text)) ->
  pebble_push PROMETHEUS_CONFIG text (container w) = inl Py.ConnectionError ->
  _configure w = (w, inr tt).
Proof.
  intros E Hh Hp. unfold _configure, bind. rewrite E. unfold gets.
  case_bool_decide as Hd; [|contradiction].
  unfold try_except, bind, request. rewrite Hp. reflexivity.
Qed.

Lemma configure_pushed w text c :
  _prometheus_config (config w) (stored w) (peer_jobs w) = inr text ->
  stored_prometheus_config_hash (stored w)
  <> Some (md5_hexdigest (fingerprint_input text)) ->
  pebble_push PROMETHEUS_CONFIG text (container w) = inr c ->
  _configure w =
    setup_workload
      (with_stored
         (set_prometheus_config_hash
            (Some (md5_hexdigest (fingerprint_input text))) (stored w))
         (with_container c w)).
Proof.
  intros E Hh Hp. unfold _configure, bind. rewrite E. unfold gets.
  case_bool_decide as Hd; [|contradiction].
  unfold try_except, bind, request. rewrite Hp. reflexivity.
Qed.

Lemma pebble_push_cases path text c :
  (connected c = false /\ pebble_push path text c = inl Py.ConnectionError)
  \/ (connected c = true
      /\ pebble_push path text c
         = inr (push_state path (encode_utf8 text) c)).
Proof.
  unfold pebble_push. destruct (connected c); [right|left]; split; reflexivity.
Qed.

End Configure.

(** ** The reconciliation pass *)

Example first_pass_requests :
  calls_during (@_configure Demo.libs) Demo.world0
  = [Push PROMETHEUS_CONFIG (encode_utf8 Demo.config_text0);
     AddLayer "prometheus" (_prometheus_layer Demo.config0);
     Start "prometheus"].
Proof. vm_compute. reflexivity. Qed.

Example running_service_is_stopped_first :
  calls_during (@_configure Demo.libs) Demo.world_running
  = [Push PROMETHEUS_CONFIG (encode_utf8 Demo.config_text0);
     AddLayer "prometheus" (_prometheus_layer Demo.config0);
     Stop "prometheus"; Start "prometheus"].
Proof. vm_compute. reflexivity. Qed.

Example offline_pass_requests :
  calls_during (@_configure Demo.libs) Demo.world_offline = []
  /\ outcome (@_configure Demo.libs) Demo.world_offline = inr tt
  /\ outcome (@_configure Demo.libs)
       (with_stored
          (set_alertmanagers (Py.VInt 3) Demo.stored0) Demo.world0)
     = inl Py.TypeError.
Proof. repeat split; vm_compute; reflexivity. Qed.

(** C1. Every file [_configure] pushes is the YAML text returned by
    [_prometheus_config], written to the configuration path, and its bytes
    are the very bytes whose MD5 digest the pass takes and stores as the
    fingerprint. *)
Theorem fingerprint_over_pushed_bytes `{Libs} w path data :
  In (Push path data) (calls_during _configure w) ->
  exists text,
    _prometheus_config (config w) (stored w) (peer_jobs w) = inr text
    /\ path = PROMETHEUS_CONFIG
    /\ data = encode_utf8 text
    /\ fingerprint_input text = data
    /\ stored_prometheus_config_hash (stored (run _configure w))
       = Some (md5_hexdigest data)
    /\ files (container (run _configure w)) !! path = Some data.
Proof.
  intros Hin.
  destruct (_prometheus_config (config w) (stored w) (peer_jobs w))
    as [e|text] eqn:E.
  { rewrite calls_during_same in Hin; [destruct Hin|].
    unfold run. now rewrite (configure_synthesis_error _ _ E). }
  destruct (decide (stored_prometheus_config_hash (stored w)
                    = Some (md5_hexdigest (fingerprint_input text))))
    as [Hh|Hh].
  { pose proof (setup_workload_frame w)
      as (_ & _ & _ & _ & _ & _ & extra & Hcalls & Hnp).
    rewrite (calls_during_app _ _ extra) in Hin.
    - apply (proj1 (List.Forall_forall _ _) Hnp) in Hin. discriminate.
    - unfold run. now rewrite (configure_unchanged _ _ E Hh). }
  destruct (pebble_push_cases PROMETHEUS_CONFIG text (container w))
    as [[_ Hp]|[_ Hp]].
  { rewrite calls_during_same in Hin; [destruct Hin|].
    unfold run. now rewrite (configure_push_refused _ _ E Hh Hp). }
  pose proof (configure_pushed _ _ _ E Hh Hp) as Hrun.
  match type of Hrun with _ = setup_workload ?w2 =>
    pose proof (setup_workload_frame w2)
      as (_ & Hst & _ & _ & _ & Hfiles & extra & Hcalls & Hnp)
  end.
  unfold calls_during, run in *. rewrite Hrun. rewrite Hrun, Hcalls in Hin.
  cbn [container with_container with_stored push_state log_call calls] in Hin.
  rewrite <- app_assoc, drop_app_length in Hin.
  destruct Hin as [Heq|Hin].
  - injection Heq as <- <-. exists text.
    split; [reflexivity|]. split; [reflexivity|]. split; [reflexivity|].
    split; [reflexivity|]. split.
    + rewrite Hst. reflexivity.
    + rewrite Hfiles. cbn. apply lookup_insert_eq.
  - apply (proj1 (List.Forall_forall _ _) Hnp) in Hin. discriminate.
Qed.

(** The first pass of the sample unit pushes its document. *)
Lemma fingerprint_over_pushed_bytes_witness :
  exists text,
    @_prometheus_config Demo.libs (config Demo.world0) (stored Demo.world0)
      (peer_jobs Demo.world0) = inr text
    /\ "/etc/prometheus/prometheus.yml" = PROMETHEUS_CONFIG
    /\ encode_utf8 Demo.config_text0 = encode_utf8 text
    /\ @fingerprint_input Demo.libs text = encode_utf8 Demo.config_text0
    /\ stored_prometheus_config_hash
         (stored (run (@_configure Demo.libs) Demo.world0))
       = Some (@md5_hexdigest Demo.libs (encode_utf8 Demo.config_text0))
    /\ files (container (run (@_configure Demo.libs) Demo.world0))
         !! "/etc/prometheus/prometheus.yml"
       = Some (encode_utf8 Demo.config_text0).
Proof.
  apply (@fingerprint_over_pushed_bytes Demo.libs Demo.world0).
  vm_compute. left. reflexivity.
Defined.

(** C3. When the push of a changed configuration is refused with
    [ConnectionError], [_configure] returns without raising and leaves the
    whole state as it found it: the stored fingerprint is unchanged, and
    Pebble received no layer and no stop or start request. *)
Theorem push_connection_error_aborts `{Libs} w text :
  _prometheus_config (config w) (stored w) (peer_jobs w) = inr text ->
  stored_prometheus_config_hash (stored w)
  <> Some (md5_hexdigest (fingerprint_input text)) ->
  pebble_push PROMETHEUS_CONFIG text (container w) = inl Py.ConnectionError ->
  outcome _configure w = inr tt
  /\ run _configure w = w
  /\ stored_prometheus_config_hash (stored (run _configure w))
     = stored_prometheus_config_hash (stored w)
  /\ calls_during _configure w = [].
Proof.
  intros E Hh Hp. pose proof (configure_push_refused _ _ E Hh Hp) as Hrun.
  assert (Hw : run _configure w = w) by (unfold run; now rewrite Hrun).
  split; [unfold outcome; now rewrite Hrun|].
  split; [exact Hw|]. split; [now rewrite Hw|].
  apply calls_during_same. now rewrite Hw.
Qed.

(** The sample unit before Pebble answers. *)
Lemma push_connection_error_aborts_witness :
  outcome (@_configure Demo.libs) Demo.world_offline = inr tt
  /\ run (@_configure Demo.libs) Demo.world_offline = Demo.world_offline
  /\ stored_prometheus_config_hash
       (stored (run (@_configure Demo.libs) Demo.world_offline))
     = stored_prometheus_config_hash (stored Demo.world_offline)
  /\ calls_during (@_configure Demo.libs) Demo.world_offline = [].
Proof.
  apply (@push_connection_error_aborts Demo.libs Demo.world_offline
           Demo.config_text0).
  - reflexivity.
  - discriminate.
  - reflexivity.
Defined.

(** C10. On a unit that is not the leader both alertmanager handlers return
    at once: whatever the event carries, the whole state (stored
    alertmanagers, container, statuses) is as before and Pebble received no
    request. *)
Theorem follower_ignores_alertmanager_events `{Libs} w addrs_field :
  leader w = false ->
  _on_alertmanager_changed addrs_field w = (w, inr tt)
  /\ _on_alertmanager_broken w = (w, inr tt)
  /\ calls_during (_on_alertmanager_changed addrs_field) w = []
  /\ calls_during _on_alertmanager_broken w = [].
Proof.
  intros Hl.
  assert (Hc : _on_alertmanager_changed addrs_field w = (w, inr tt)).
  { unfold _on_alertmanager_changed, bind, gets. rewrite Hl. reflexivity. }
  assert (Hb : _on_alertmanager_broken w = (w, inr tt)).
  { unfold _on_alertmanager_broken, bind, gets. rewrite Hl. reflexivity. }
  split; [exact Hc|]. split; [exact Hb|].
  split; apply calls_during_same; unfold run; [now rewrite Hc|now rewrite Hb].
Qed.

(** A follower receiving an endpoint list. *)
Lemma follower_ignores_alertmanager_events_witness :
  @_on_alertmanager_changed Demo.libs (Some Demo.addrs_payload)
    Demo.world_follower = (Demo.world_follower, inr tt)
  /\ @_on_alertmanager_broken Demo.libs Demo.world_follower
     = (Demo.world_follower, inr tt)
  /\ calls_during
       (@_on_alertmanager_changed Demo.libs (Some Demo.addrs_payload))
       Demo.world_follower = []
  /\ calls_during (@_on_alertmanager_broken Demo.libs) Demo.world_follower
     = [].
Proof.
  apply (@follower_ignores_alertmanager_events Demo.libs Demo.world_follower).
  reflexivity.
Defined.

(** ** The readiness latch *)

Section Latch.
Context `{Libs}.

Lemma latch_frame_container w c : latch_frame w (with_container c w).
Proof. intros Hw. exact Hw. Qed.

Lemma latch_frame_stored w (f : Stored -> Stored) :
  (forall s, stored_provider_ready (f s) = stored_provider_ready s) ->
  latch_frame w (with_stored (f (stored w)) w).
Proof. intros Hf Hw. cbn. now rewrite Hf. Qed.

Lemma setup_workload_latch : preserves latch_frame setup_workload.
Proof.
  apply (preserves_weaken workload_frame); [|apply setup_workload_frame].
  intros w w' (_ & Hst & _) Hw. now rewrite Hst.
Qed.

Lemma configure_latch : preserves latch_frame _configure.
Proof.
  unfold _configure.
  apply preserves_bind; [typeclasses eauto|apply preserves_pure; typeclasses eauto|].
  intros text.
  apply preserves_bind; [typeclasses eauto|apply preserves_gets; typeclasses eauto|].
  intros stored_hash.
  apply preserves_bind; [typeclasses eauto| |].
  - case_bool_decide; [|apply preserves_ret; typeclasses eauto].
    apply preserves_try_except;
      [typeclasses eauto| |apply preserves_ret; typeclasses eauto].
    apply preserves_bind; [typeclasses eauto| |intros _].
    + apply preserves_request; [typeclasses eauto|].
      intros w c _. apply latch_frame_container.
    + apply preserves_bind;
        [typeclasses eauto| |intros _; apply preserves_ret; typeclasses eauto].
      apply preserves_modify. intros w.
      now apply (latch_frame_stored w (set_prometheus_config_hash _)).
  - intros proceed. destruct proceed; cbn [negb].
    + apply setup_workload_latch.
    + apply preserves_ret. typeclasses eauto.
Qed.

Lemma on_alertmanager_changed_latch addrs_field :
  preserves latch_frame (_on_alertmanager_changed addrs_field).
Proof.
  unfold _on_alertmanager_changed.
  apply preserves_bind; [typeclasses eauto|apply preserves_gets; typeclasses eauto|].
  intros is_leader. destruct (negb is_leader);
    [apply preserves_ret; typeclasses eauto|].
  destruct (json_loads _) as [addrs|];
    [|apply preserves_raise; typeclasses eauto].
  apply preserves_bind; [typeclasses eauto| |intros _; apply configure_latch].
  apply preserves_modify. intros w.
  now apply (latch_frame_stored w (set_alertmanagers addrs)).
Qed.

Lemma on_alertmanager_broken_latch :
  preserves latch_frame _on_alertmanager_broken.
Proof.
  unfold _on_alertmanager_broken.
  apply preserves_bind; [typeclasses eauto|apply preserves_gets; typeclasses eauto|].
  intros is_leader. destruct (negb is_leader);
    [apply preserves_ret; typeclasses eauto|].
  apply preserves_bind;
    [typeclasses eauto|apply preserves_pure; typeclasses eauto|].
  intros cleared.
  apply preserves_bind; [typeclasses eauto| |intros _; apply configure_latch].
  apply preserves_modify. intros w.
  now apply (latch_frame_stored w (set_alertmanagers cleared)).
Qed.

Lemma provider_ready_latched w info :
  stored_provider_ready (stored w) = true ->
  provider_ready info w = (w, inr true).
Proof.
  intros Hw. unfold provider_ready, bind, gets. rewrite Hw. cbn.
  now rewrite Hw.
Qed.

Lemma provider_ready_returns_flag w info :
  outcome (provider_ready info) w
  = inr (stored_provider_ready (stored (run (provider_ready info) w))).
Proof.
  unfold outcome, run, provider_ready, bind, gets, when.
  destruct (negb (stored_provider_ready (stored w))
            && Py.truthy (version info)); reflexivity.
Qed.

Lemma step_latch op w :
  stored_provider_ready (stored w) = true ->
  stored_provider_ready (stored (step op w)) = true.
Proof.
  intros Hw. destruct op; cbn [step].
  - unfold run. now rewrite provider_ready_latched.
  - now apply configure_latch.
  - now apply configure_latch.
  - now apply configure_latch.
  - exact Hw.
  - now apply on_alertmanager_changed_latch.
  - now apply on_alertmanager_broken_latch.
Qed.

Lemma run_ops_latch ops w :
  stored_provider_ready (stored w) = true ->
  stored_provider_ready (stored (run_ops ops w)) = true.
Proof.
  revert w. induction ops as [|op ops IH]; intros w Hw; [exact Hw|].
  cbn. apply IH. now apply step_latch.
Qed.

End Latch.

(** C8. Once [provider_ready] has returned [True], it returns [True] on every
    later call, whatever the probe answers (a [None] included) and whatever
    handlers and earlier reads ran in between; the stored flag stays set. *)
Theorem readiness_latch_monotonic `{Libs} w info ops info' :
  outcome (provider_ready info) w = inr true ->
  stored_provider_ready
    (stored (run_ops ops (run (provider_ready info) w))) = true
  /\ outcome (provider_ready info')
       (run_ops ops (run (provider_ready info) w)) = inr true
  /\ stored_provider_ready
       (stored (run (provider_ready info')
                  (run_ops ops (run (provider_ready info) w)))) = true.
Proof.
  intros Hret. rewrite provider_ready_returns_flag in Hret.
  injection Hret as Hflag.
  pose proof (run_ops_latch ops _ Hflag) as Hlater.
  split; [exact Hlater|].
  set (w1 := run_ops ops (run (provider_ready info) w)) in *.
  pose proof (provider_ready_latched w1 info' Hlater) as Hp.
  split; [unfold outcome; now rewrite Hp|].
  replace (run (provider_ready info') w1) with w1; [exact Hlater|].
  unfold run. now rewrite Hp.
Qed.

(** A successful probe, then failed probes around two handlers. *)
Lemma readiness_latch_monotonic_witness :
  stored_provider_ready
    (stored
       (run_ops (H := Demo.libs)
          [OpProviderReady None; OpConfigChanged;
           OpAlertmanagerChanged (Some Demo.addrs_payload);
           OpProviderReady None]
          (run (provider_ready (Some [("version", Py.VStr "2.26.0")]))
             Demo.world0))) = true
  /\ outcome (provider_ready None)
       (run_ops (H := Demo.libs)
          [OpProviderReady None; OpConfigChanged;
           OpAlertmanagerChanged (Some Demo.addrs_payload);
           OpProviderReady None]
          (run (provider_ready (Some [("version", Py.VStr "2.26.0")]))
             Demo.world0)) = inr true
  /\ stored_provider_ready
       (stored
          (run (provider_ready None)
             (run_ops (H := Demo.libs)
                [OpProviderReady None; OpConfigChanged;
                 OpAlertmanagerChanged (Some Demo.addrs_payload);
                 OpProviderReady None]
                (run (provider_ready (Some [("version", Py.VStr "2.26.0")]))
                   Demo.world0)))) = true.
Proof.
  apply (@readiness_latch_monotonic Demo.libs). reflexivity.
Defined.

(** ** Pebble's plan under this charm *)

Lemma combine_services_singleton base name s :
  combine_services base {[name := s]} = apply_service name s base.
Proof. unfold combine_services. apply map_fold_singleton. Qed.

Lemma valid_prometheus_layer config :
  valid_layer (_prometheus_layer config) = true.
Proof.
  unfold valid_layer, _prometheus_layer. cbn [layer_services].
  rewrite map_to_list_singleton. reflexivity.
Qed.

Lemma combine_prometheus_service config base :
  combine_services base (layer_services (_prometheus_layer config))
  = <["prometheus" := prometheus_service config]> base.
Proof.
  unfold _prometheus_layer. cbn [layer_services].
  rewrite combine_services_singleton. reflexivity.
Qed.

Lemma insert_over_managed_services config (m : gmap string Service) :
  dom m ⊆ {["prometheus"]} ->
  <["prometheus" := prometheus_service config]> m
  = {["prometheus" := prometheus_service config]}.
Proof.
  intros Hdom. apply map_eq. intros i.
  destruct (decide (i = "prometheus")) as [->|Hne].
  - now rewrite lookup_insert_eq, lookup_singleton_eq.
  - rewrite lookup_insert_ne, lookup_singleton_ne by congruence.
    apply not_elem_of_dom. intros Hin. apply Hdom in Hin.
    apply elem_of_singleton in Hin. contradiction.
Qed.

(** Adding the charm's layer to a managed plan makes the plan's services the
    layer's services, and the plan stays managed. *)
Lemma managed_add_layer config c c' :
  managed c ->
  layers c' = combine_layer "prometheus" (_prometheus_layer config) (layers c) ->
  plan_services c' = layer_services (_prometheus_layer config) /\ managed c'.
Proof.
  intros [Hnil|(old & Hone & Hdom)] Hl; unfold plan_services;
    rewrite Hl.
  - rewrite Hnil. cbn [combine_layer fold_left snd].
    rewrite combine_prometheus_service, insert_empty. split; [reflexivity|].
    right. exists (_prometheus_layer config). rewrite Hl, Hnil.
    split; [reflexivity|]. cbn [_prometheus_layer layer_services].
    now rewrite dom_singleton_L.
  - rewrite Hone.
    assert (Hm : layer_services (merge_layer old (_prometheus_layer config))
                 = {["prometheus" := prometheus_service config]}).
    { unfold merge_layer. cbn [layer_services].
      rewrite combine_prometheus_service.
      now apply insert_over_managed_services. }
    change (combine_layer "prometheus" (_prometheus_layer config)
              [("prometheus", old)])
      with [("prometheus", merge_layer old (_prometheus_layer config))].
    cbn [fold_left snd]. rewrite Hm.
    rewrite combine_services_singleton.
    change (apply_service "prometheus" (prometheus_service config) ∅)
      with (<["prometheus" := prometheus_service config]>
              (∅ : gmap string Service)).
    rewrite insert_empty. split; [reflexivity|].
    right. exists (merge_layer old (_prometheus_layer config)).
    rewrite Hl, Hone. split; [reflexivity|].
    rewrite Hm. now rewrite dom_singleton_L.
Qed.

Lemma plan_services_layers c c' :
  layers c' = layers c -> plan_services c' = plan_services c.
Proof. intros Hl. unfold plan_services. now rewrite Hl. Qed.

Lemma managed_layers c c' : layers c' = layers c -> managed c -> managed c'.
Proof. intros Hl Hm. unfold managed in *. now rewrite Hl. Qed.

Lemma replanned_layers layer c :
  layers (replanned layer c) = combine_layer "prometheus" layer (layers c).
Proof. unfold replanned. cbv zeta. case_bool_decide; reflexivity. Qed.

Lemma replanned_calls layer c :
  calls (replanned layer c)
  = (calls c ++ AddLayer "prometheus" layer
       :: (if bool_decide ("prometheus" ∈ active c)
           then [Stop "prometheus"; Start "prometheus"]
           else [Start "prometheus"]))%list.
Proof.
  unfold replanned. cbv zeta.
  cbn [add_layer_state log_call active].
  case_bool_decide;
    cbn [start_state stop_state add_layer_state log_call calls];
    rewrite <- ?app_assoc; reflexivity.
Qed.

Lemma pebble_is_running_ok name c s :
  connected c = true -> plan_services c !! name = Some s ->
  pebble_is_running name c = inr (bool_decide (name ∈ active c)).
Proof. intros Hc Hp. unfold pebble_is_running. now rewrite Hc, Hp. Qed.

Lemma pebble_stop_ok name c s :
  connected c = true -> plan_services c !! name = Some s ->
  pebble_stop name c = inr (stop_state name c).
Proof. intros Hc Hp. unfold pebble_stop. now rewrite Hc, Hp. Qed.

Lemma pebble_start_ok name c s :
  connected c = true -> plan_services c !! name = Some s ->
  pebble_start name c = inr (start_state name c).
Proof. intros Hc Hp. unfold pebble_start. now rewrite Hc, Hp. Qed.

Section Workload.
Context `{Libs}.

Lemma setup_workload_offline w :
  connected (container w) = false ->
  setup_workload w = (w, inl Py.ConnectionError).
Proof.
  intros Hc. unfold setup_workload, bind, gets, query, pebble_get_plan.
  now rewrite Hc.
Qed.

Lemma setup_workload_in_place w :
  connected (container w) = true ->
  plan_services (container w) = layer_services (_prometheus_layer (config w)) ->
  setup_workload w = (set_statuses w, inr tt).
Proof.
  intros Hc Hp. unfold setup_workload, bind, gets, query, pebble_get_plan.
  rewrite Hc. rewrite bool_decide_eq_false_2 by (intros Hne; now apply Hne).
  unfold set_statuses. cbn. destruct (leader w); reflexivity.
Qed.

Lemma setup_workload_replan w :
  connected (container w) = true ->
  plan_services (container w) <> layer_services (_prometheus_layer (config w)) ->
  managed (container w) ->
  setup_workload w
  = (set_statuses
       (with_container
          (replanned (_prometheus_layer (config w)) (container w)) w),
     inr tt).
Proof.
  intros Hc Hp Hm.
  set (c1 := add_layer_state "prometheus" (_prometheus_layer (config w))
               (container w)).
  destruct (managed_add_layer (config w) (container w) c1 Hm eq_refl)
    as [Hplan1 _].
  assert (Hs1 : plan_services c1 !! "prometheus"
                = Some (prometheus_service (config w))).
  { rewrite Hplan1. apply lookup_singleton_eq. }
  assert (Hc1 : connected c1 = true) by exact Hc.
  assert (Hs2 : plan_services (stop_state "prometheus" c1) !! "prometheus"
                = Some (prometheus_service (config w))).
  { now rewrite (plan_services_layers c1 (stop_state "prometheus" c1)). }
  unfold setup_workload, bind, gets, query, pebble_get_plan.
  rewrite Hc. rewrite bool_decide_eq_true_2 by assumption.
  unfold when, bind, request, query, pebble_add_layer.
  rewrite Hc, valid_prometheus_layer.
  cbn [container with_container]. fold c1.
  rewrite (pebble_is_running_ok _ _ _ Hc1 Hs1).
  unfold replanned. cbv zeta. fold c1.
  destruct (bool_decide ("prometheus" ∈ active c1)).
  - cbv beta iota. cbn [container with_container].
    rewrite (pebble_stop_ok _ _ _ Hc1 Hs1). cbn [container with_container].
    rewrite (pebble_start_ok _ (stop_state "prometheus" c1) _ Hc1 Hs2).
    unfold set_statuses, modify. cbn. destruct (leader w); reflexivity.
  - unfold ret. cbv beta iota. cbn [container with_container].
    rewrite (pebble_start_ok _ _ _ Hc1 Hs1).
    unfold set_statuses, modify. cbn. destruct (leader w); reflexivity.
Qed.

End Workload.

(** ** Idempotence of the pass *)

Section Idempotence.
Context `{Libs}.

Lemma set_statuses_parts w :
  config (set_statuses w) = config w /\ stored (set_statuses w) = stored w
  /\ peer_jobs (set_statuses w) = peer_jobs w
  /\ container (set_statuses w) = container w.
Proof. unfold set_statuses. destruct (leader w); repeat split. Qed.


(** Two passes with nothing in between are the case where Pebble answers as
    before. *)
Lemma reconnect_same w : reconnect (connected (container w)) w = w.
Proof. destruct w as [? ? ? ? [? ? ? ? ?] ? ?]. reflexivity. Qed.

(** Without Pebble the pass changes nothing. *)
Lemma configure_offline w :
  connected (container w) = false -> run _configure w = w.
Proof.
  intros Hc. unfold run.
  destruct (_prometheus_config (config w) (stored w) (peer_jobs w))
    as [e|text] eqn:E.
  { now rewrite (configure_synthesis_error _ _ E). }
  destruct (decide (stored_prometheus_config_hash (stored w)
                    = Some (md5_hexdigest (fingerprint_input text))))
    as [Hh|Hh].
  { rewrite (configure_unchanged _ _ E Hh).
    now rewrite (setup_workload_offline _ Hc). }
  destruct (pebble_push_cases PROMETHEUS_CONFIG text (container w))
    as [[_ Hp]|[Hc' _]]; [|congruence].
  now rewrite (configure_push_refused _ _ E Hh Hp).
Qed.


(** What [setup_workload] does on a managed container that answers. *)
Lemma setup_workload_online w :
  connected (container w) = true -> managed (container w) ->
  exists post,
    calls (container (fst (setup_workload w)))
    = (calls (container w) ++ post)%list
    /\ (post = []
        \/ (exists l, post = [AddLayer "prometheus" l; Start "prometheus"])
        \/ (exists l, post = [AddLayer "prometheus" l; Stop "prometheus";
                              Start "prometheus"]))
    /\ config (fst (setup_workload w)) = config w
    /\ stored (fst (setup_workload w)) = stored w
    /\ peer_jobs (fst (setup_workload w)) = peer_jobs w
    /\ plan_services (container (fst (setup_workload w)))
       = layer_services (_prometheus_layer (config w))
    /\ managed (container (fst (setup_workload w))).
Proof.
  intros Hc Hm.
  destruct (decide (plan_services (container w)
                    = layer_services (_prometheus_layer (config w))))
    as [Hp|Hp].
  - rewrite (setup_workload_in_place _ Hc Hp). cbn [fst].
    destruct (set_statuses_parts w) as (-> & -> & -> & ->).
    exists []. rewrite app_nil_r. repeat split; auto.
  - rewrite (setup_workload_replan _ Hc Hp Hm). cbn [fst].
    match goal with |- context [set_statuses ?w2] =>
      destruct (set_statuses_parts w2) as (-> & -> & -> & ->) end.
    cbn [config stored peer_jobs container with_container].
    destruct (managed_add_layer (config w) (container w)
                (replanned (_prometheus_layer (config w)) (container w)) Hm
                (replanned_layers _ _)) as [Hplan Hm'].
    eexists. split; [apply replanned_calls|].
    split; [|repeat split; assumption].
    right. destruct (bool_decide _); [right|left]; eexists; reflexivity.
Qed.

(** One pass on a managed container that answers: at most a push, then at
    most one restart sequence, and the unit is settled. *)
Lemma configure_online w :
  connected (container w) = true -> managed (container w) ->
  exists pre post,
    calls_during _configure w = (pre ++ post)%list
    /\ (pre = [] \/ exists d, pre = [Push PROMETHEUS_CONFIG d])
    /\ (post = []
        \/ (exists l, post = [AddLayer "prometheus" l; Start "prometheus"])
        \/ (exists l, post = [AddLayer "prometheus" l; Stop "prometheus";
                              Start "prometheus"]))
    /\ settled (run _configure w)
    /\ managed (container (run _configure w)).
Proof.
  intros Hc Hm.
  destruct (_prometheus_config (config w) (stored w) (peer_jobs w))
    as [e|text] eqn:E.
  { assert (Hw : run _configure w = w)
      by (unfold run; now rewrite (configure_synthesis_error _ _ E)).
    exists [], []. rewrite Hw.
    split; [apply calls_during_same; now rewrite Hw|].
    split; [now left|]. split; [now left|].
    split; [unfold settled; now rewrite E|exact Hm]. }
  destruct (decide (stored_prometheus_config_hash (stored w)
                    = Some (md5_hexdigest (fingerprint_input text))))
    as [Hh|Hh].
  - destruct (setup_workload_online w Hc Hm)
      as (post & Hcalls & Hpost & Hcfg & Hst & Hjobs & Hplan & Hm').
    assert (Hw : run _configure w = fst (setup_workload w))
      by (unfold run; now rewrite (configure_unchanged _ _ E Hh)).
    exists [], post. rewrite Hw.
    split; [apply calls_during_app; now rewrite Hw|].
    split; [now left|]. split; [exact Hpost|]. split; [|exact Hm'].
    unfold settled. rewrite Hcfg, Hst, Hjobs, E. now split.
  - destruct (pebble_push_cases PROMETHEUS_CONFIG text (container w))
      as [[Hc' _]|[_ Hpush]]; [congruence|].
    pose proof (configure_pushed _ _ _ E Hh Hpush) as Hrun.
    fold (pushed text w) in Hrun.
    assert (Hcp : connected (container (pushed text w)) = true) by exact Hc.
    assert (Hmp : managed (container (pushed text w)))
      by (now apply (managed_layers (container w))).
    destruct (setup_workload_online (pushed text w) Hcp Hmp)
      as (post & Hcalls & Hpost & Hcfg & Hst & Hjobs & Hplan & Hm').
    assert (Hw : run _configure w = fst (setup_workload (pushed text w)))
      by (unfold run; now rewrite Hrun).
    exists [Push PROMETHEUS_CONFIG (encode_utf8 text)], post. rewrite Hw.
    split.
    { apply calls_during_app. rewrite Hw, Hcalls.
      cbn [pushed container with_container with_stored push_state log_call
           calls].
      now rewrite <- app_assoc. }
    split; [right; eauto|]. split; [exact Hpost|]. split; [|exact Hm'].
    unfold settled. rewrite Hcfg, Hst, Hjobs.
    change (_prometheus_config (config (pushed text w))
              (stored (pushed text w)) (peer_jobs (pushed text w)))
      with (_prometheus_config (config w) (stored w) (peer_jobs w)).
    rewrite E. split; [reflexivity|exact Hplan].
Qed.


End Idempotence.

Section Managed.
Context `{Libs}.

Lemma configure_managed w :
  managed (container w) -> managed (container (run _configure w)).
Proof.
  intros Hm. destruct (connected (container w)) eqn:Hc.
  - now destruct (configure_online w Hc Hm) as (_ & _ & _ & _ & _ & _ & Hm').
  - now rewrite (configure_offline w Hc).
Qed.

(** Every entry point of the charm keeps the plan managed, so a unit whose
    container starts without layers only ever sees managed plans. *)
Lemma step_managed op w :
  managed (container w) -> managed (container (step op w)).
Proof.
  intros Hm. destruct op; cbn [step].
  - unfold run, provider_ready, bind, gets, when.
    destruct (negb _ && _); exact Hm.
  - now apply configure_managed.
  - now apply configure_managed.
  - now apply configure_managed.
  - exact Hm.
  - unfold run, _on_alertmanager_changed, bind, gets.
    destruct (negb (leader w)); [exact Hm|].
    destruct (json_loads _) as [addrs|]; [|exact Hm].
    now apply (configure_managed
                 (with_stored (set_alertmanagers addrs (stored w)) w)).
  - unfold run, _on_alertmanager_broken, bind, gets.
    destruct (negb (leader w)); [exact Hm|].
    destruct (py_clear _) as [e|cleared]; [exact Hm|].
    now apply (configure_managed
                 (with_stored (set_alertmanagers cleared (stored w)) w)).
Qed.

Lemma run_ops_managed ops w :
  layers (container w) = [] -> managed (container (run_ops ops w)).
Proof.
  intros Hnil. assert (Hm : managed (container w)) by now left.
  clear Hnil. revert w Hm.
  induction ops as [|op ops IH]; intros w Hm; [exact Hm|].
  cbn. apply IH. now apply step_managed.
Qed.

End Managed.




(** * Further properties *)

(** ** Time spans *)

Lemma split_last_snoc c t u :
  Py.split_last c (t +:+ String u "") = (String c t, u).
Proof.
  revert c. induction t as [|c' t IH]; intros c; [reflexivity|].
  change (String c' t +:+ String u "") with (String c' (t +:+ String u "")).
  cbn [Py.split_last]. now rewrite IH.
Qed.

(** The validator on a string given as its last character and what comes
    before it. *)
Lemma is_valid_timespec_snoc t u :
  _is_valid_timespec (t +:+ String u "")
  = existsb (Ascii.eqb u) allowed_units
    && match Py.int t with Some n => 0 <? n | None => false end.
Proof.
  assert (Hgen : forall c r,
    _is_valid_timespec (String c r)
    = let '(time, unit) := Py.split_last c r in
      existsb (Ascii.eqb unit) allowed_units
      && match Py.int time with Some n => 0 <? n | None => false end).
  { intros c r. unfold _is_valid_timespec.
    destruct (Py.split_last c r) as [time unit].
    destruct (existsb _ _); [|reflexivity]. cbn [negb andb].
    destruct (Py.int time) as [n|]; [|reflexivity].
    destruct (0 <? n); reflexivity. }
  destruct t as [|c t].
  - change ("" +:+ String u "") with (String u ""). rewrite Hgen. reflexivity.
  - change (String c t +:+ String u "") with (String c (t +:+ String u "")).
    rewrite Hgen, split_last_snoc. reflexivity.
Qed.



(** X2. Whatever precedes it, a string whose last character is not one of
    y, w, d, h, m, s is refused, and so is a lone unit with no amount. *)
Theorem timespec_needs_unit_and_amount (t : string) (u : ascii) :
  (~ In u allowed_units -> _is_valid_timespec (t +:+ String u "") = false)
  /\ _is_valid_timespec (String u "") = false.
Proof.
  split.
  - intros Hu. rewrite is_valid_timespec_snoc.
    destruct (existsb (Ascii.eqb u) allowed_units) eqn:Hex; [|reflexivity].
    apply existsb_exists in Hex as (x & Hin & Heq).
    apply Ascii.eqb_eq in Heq. subst x. contradiction.
  - change (String u "") with ("" +:+ String u "").
    rewrite is_valid_timespec_snoc. apply andb_false_r.
Qed.

(** Minutes must be written "m": "5min" ends in "n". *)
Lemma timespec_needs_unit_and_amount_witness :
  _is_valid_timespec ("5mi" +:+ "n") = false.
Proof.
  apply (proj1 (timespec_needs_unit_and_amount "5mi" "n")).
  cbn. intros Hin. decompose [or] Hin; discriminate || assumption.
Defined.

(** ** The global section and the command line, accepted values *)

Lemma global_external_labels `{Libs} config :
  Py.dict_get "external_labels" (_prometheus_global_config config)
  = if Py.truthy (Py.VDict (_external_labels config))
    then Some (Py.VDict (_external_labels config)) else None.
Proof.
  unfold _prometheus_global_config.
  rewrite !set_timespec_other by discriminate.
  destruct (Py.truthy _); [apply dict_get_set_eq|reflexivity].
Qed.

(** X3. External labels are taken whole or not at all: the global section
    has the key [external_labels] exactly when the option is a non-empty
    text that decodes to a non-empty JSON object all of whose values are
    strings, and then its value is the whole decoded object; one value that
    is not a string drops every label. *)
Theorem external_labels_all_or_nothing `{Libs} config :
  Py.dict_get "external_labels" (_prometheus_global_config config)
  = match cfg_external_labels config with
    | Some s =>
        match json_loads s with
        | Some (Py.VDict labels) =>
            if negb (String.eqb s "") && all_str_values labels
               && negb (Nat.eqb (length labels) 0)
            then Some (Py.VDict labels) else None
        | _ => None
        end
    | None => None
    end.
Proof.
  rewrite global_external_labels.
  unfold _external_labels, _are_valid_labels, opt_truthy, opt_value.
  destruct (cfg_external_labels config) as [s|]; [|reflexivity].
  cbn [default from_option id]. destruct (String.eqb s "") eqn:Hs; cbn [negb andb].
  { destruct (json_loads s) as [[]|]; reflexivity. }
  destruct (json_loads s) as [v|]; [|reflexivity].
  destruct v; try reflexivity.
  destruct (all_str_values entries); [|reflexivity].
  cbn [andb Py.truthy]. destruct (Nat.eqb (length entries) 0); reflexivity.
Qed.

Lemma set_timespec_accepted key v d :
  _is_valid_timespec v = true ->
  set_timespec key (Some v) d = Py.dict_set key (Py.VStr v) d.
Proof.
  intros Hv. unfold set_timespec, opt_truthy, opt_value. cbn [default from_option id].
  destruct (String.eqb_spec v "") as [->|_]; [discriminate Hv|].
  now rewrite Hv.
Qed.

Lemma dict_set_keys k v d k' :
  In k' (map fst (Py.dict_set k v d)) -> k' = k \/ In k' (map fst d).
Proof.
  induction d as [|[k0 v0] d IH]; cbn.
  - intros [<-|[]]. now left.
  - destruct (String.eqb_spec k0 k) as [->|Hne]; cbn.
    + intros [<-|Hin]; auto.
    + intros [<-|Hin]; auto. destruct (IH Hin); auto.
Qed.

Lemma set_timespec_keys key o d k' :
  In k' (map fst (set_timespec key o d)) -> k' = key \/ In k' (map fst d).
Proof.
  unfold set_timespec. destruct (_ && _); [apply dict_set_keys|auto].
Qed.

(** X4. A scrape interval, scrape timeout or evaluation interval that passes
    the validator appears in the global section under its key with the
    configured text unchanged, and the global section never holds a key
    other than [external_labels], [scrape_interval], [scrape_timeout] and
    [evaluation_interval]. *)
Theorem global_section_contents `{Libs} config :
  (forall v, cfg_scrape_interval config = Some v ->
     _is_valid_timespec v = true ->
     Py.dict_get "scrape_interval" (_prometheus_global_config config)
     = Some (Py.VStr v))
  /\ (forall v, cfg_scrape_timeout config = Some v ->
        _is_valid_timespec v = true ->
        Py.dict_get "scrape_timeout" (_prometheus_global_config config)
        = Some (Py.VStr v))
  /\ (forall v, cfg_evaluation_interval config = Some v ->
        _is_valid_timespec v = true ->
        Py.dict_get "evaluation_interval" (_prometheus_global_config config)
        = Some (Py.VStr v))
  /\ (forall k, In k (map fst (_prometheus_global_config config)) ->
        In k ["external_labels"; "scrape_interval"; "scrape_timeout";
              "evaluation_interval"]).
Proof.
  unfold _prometheus_global_config. repeat split.
  - intros v Hv Hok. rewrite !set_timespec_other by discriminate.
    rewrite Hv, (set_timespec_accepted _ _ _ Hok). apply dict_get_set_eq.
  - intros v Hv Hok. rewrite set_timespec_other by discriminate.
    rewrite Hv, (set_timespec_accepted _ _ _ Hok). apply dict_get_set_eq.
  - intros v Hv Hok.
    rewrite Hv, (set_timespec_accepted _ _ _ Hok). apply dict_get_set_eq.
  - intros k Hin.
    apply set_timespec_keys in Hin as [->|Hin]; [cbn; tauto|].
    apply set_timespec_keys in Hin as [->|Hin]; [cbn; tauto|].
    apply set_timespec_keys in Hin as [->|Hin]; [cbn; tauto|].
    destruct (Py.truthy _); [|destruct Hin].
    apply dict_set_keys in Hin as [->|[]]. cbn. tauto.
Qed.

(** The sample configuration keeps its one-minute scrape interval. *)
Lemma global_section_contents_witness :
  Py.dict_get "scrape_interval"
    (@_prometheus_global_config Demo.libs Demo.config0)
  = Some (Py.VStr "1m").
Proof.
  apply (proj1 (@global_section_contents Demo.libs Demo.config0));
    reflexivity.
Defined.

Lemma cli_args_shape config :
  _cli_args config
  = (base_args ++ ["--log.level=" +:+ effective_log_level config]
     ++ (if default false (cfg_tsdb_wal_compression config)
         then ["--storage.tsdb.wal-compression"] else [])
     ++ (if opt_truthy (cfg_tsdb_retention_time config)
            && _is_valid_timespec (opt_value (cfg_tsdb_retention_time config))
         then ["--storage.tsdb.retention.time="
                 +:+ opt_value (cfg_tsdb_retention_time config)]
         else []))%list.
Proof.
  unfold _cli_args.
  destruct (default false _); destruct (_ && _); reflexivity.
Qed.

(** X5. The command line carries [--storage.tsdb.wal-compression] exactly
    when the compression option is set to true, and a retention time that
    passes the validator yields the single retention flag with the
    configured text unchanged. *)
Theorem optional_flags config :
  (In "--storage.tsdb.wal-compression" (_cli_args config)
   <-> cfg_tsdb_wal_compression config = Some true)
  /\ (forall v, cfg_tsdb_retention_time config = Some v ->
        _is_valid_timespec v = true ->
        retention_flags config = ["--storage.tsdb.retention.time=" +:+ v]).
Proof.
  split.
  - rewrite cli_args_shape. split.
    + intros Hin.
      destruct (cfg_tsdb_wal_compression config) as [[|]|];
        [reflexivity| |]; exfalso; cbn in Hin;
        destruct (_ && _); cbn in Hin;
        decompose [or] Hin; discriminate || assumption.
    + intros ->. cbn. tauto.
  - intros v Hv Hok. rewrite retention_flags_spec, Hv.
    unfold opt_truthy, opt_value. cbn [default from_option id].
    destruct (String.eqb_spec v "") as [->|_]; [discriminate Hok|].
    now rewrite Hok.
Qed.

(** Compression switched on, and the fifteen days of the sample
    configuration. *)
Lemma optional_flags_witness :
  In "--storage.tsdb.wal-compression"
    (_cli_args
       {| cfg_log_level := None; cfg_tsdb_wal_compression := Some true;
          cfg_tsdb_retention_time := None; cfg_external_labels := None;
          cfg_scrape_interval := None; cfg_scrape_timeout := None;
          cfg_evaluation_interval := None; cfg_port := 9090 |})
  /\ retention_flags Demo.config0 = ["--storage.tsdb.retention.time=15d"].
Proof.
  split.
  - apply (proj1 (optional_flags _)). reflexivity.
  - apply (proj2 (optional_flags Demo.config0) "15d"); reflexivity.
Defined.

Lemma dict_list_append_keys key x d :
  map fst (dict_list_append key x d) = map fst d.
Proof.
  induction d as [|[k v] d IH]; [reflexivity|]. cbn.
  destruct (String.eqb k key); [destruct v; reflexivity|].
  cbn. now rewrite IH.
Qed.

Lemma fold_append_keys key jobs d :
  map fst (fold_left (fun d job => dict_list_append key job d) jobs d)
  = map fst d.
Proof.
  revert d. induction jobs as [|j jobs IH]; intros d; [reflexivity|].
  cbn. rewrite IH. apply dict_list_append_keys.
Qed.

(** X6. When the stored alertmanagers value has a length, the document
    handed to [yaml.dump] has the top-level keys [global] and
    [scrape_configs], followed by [alerting] exactly when that length is
    not zero, and no other key; [global] holds the global section. *)
Theorem document_top_level_keys `{Libs} config stored jobs n :
  Py.len (stored_alertmanagers stored) = inr n ->
  exists doc,
    scrape_config_doc config stored jobs = inr doc
    /\ map fst doc
       = (if (n <? 1)%nat then ["global"; "scrape_configs"]
          else ["global"; "scrape_configs"; "alerting"])
    /\ Py.dict_get "global" doc
       = Some (Py.VDict (_prometheus_global_config config)).
Proof.
  intros Hlen.
  destruct (scrape_config_doc_sized config stored jobs n Hlen)
    as (a & Ha & Hdoc).
  eexists. split; [exact Hdoc|]. cbv zeta.
  assert (Ha' : a = if (n <? 1)%nat then Py.VStr ""
                    else alerting_section (Py.iter (stored_alertmanagers stored))).
  { unfold _alerting_config in Ha. rewrite Hlen in Ha.
    destruct (n <? 1)%nat; now injection Ha as <-. }
  split.
  - destruct (stored_provider_ready stored);
      rewrite ?fold_append_keys, dict_list_append_keys, Ha';
      destruct (n <? 1)%nat; reflexivity.
  - destruct (stored_provider_ready stored);
      rewrite ?dict_get_fold_append_ne by discriminate;
      rewrite dict_get_list_append_ne by discriminate;
      rewrite Ha'; destruct (n <? 1)%nat; reflexivity.
Qed.

(** The sample unit has no alertmanager: two keys. *)
Lemma document_top_level_keys_witness :
  exists doc,
    @scrape_config_doc Demo.libs Demo.config0 Demo.stored0 [Demo.job1]
    = inr doc
    /\ map fst doc = ["global"; "scrape_configs"].
Proof.
  destruct (@document_top_level_keys Demo.libs Demo.config0 Demo.stored0
              [Demo.job1] 0%nat eq_refl) as (doc & Hdoc & Hkeys & _).
  exists doc. split; [exact Hdoc|exact Hkeys].
Defined.

(** ** The remote-write library *)

(** X7. The validation of a relation returns normally exactly when the
    relation is declared in the metadata, declares the expected interface,
    and the expected role is [provides] with the relation among the provided
    ones, or [requires] with the relation among the required ones.  So a
    provider or a consumer object is built exactly over such a relation of
    interface [prometheus_remote_write]. *)
Theorem validation_passes_iff meta relation_name interface expected_role :
  (RemoteWrite._validate_relation_by_interface_and_direction meta
     relation_name interface expected_role = inr tt
   <-> exists relation,
         RemoteWrite.meta_relations meta !! relation_name = Some relation
         /\ RemoteWrite.interface_name relation = interface
         /\ ((expected_role = RemoteWrite.provides
              /\ is_Some (RemoteWrite.meta_provides meta !! relation_name))
             \/ (expected_role = RemoteWrite.requires
                 /\ is_Some
                      (RemoteWrite.meta_requires meta !! relation_name))))
  /\ (RemoteWrite.provider_init meta relation_name = inr relation_name
      <-> RemoteWrite._validate_relation_by_interface_and_direction meta
            relation_name RemoteWrite.RELATION_INTERFACE_NAME
            RemoteWrite.provides = inr tt)
  /\ (RemoteWrite.consumer_init meta relation_name = inr relation_name
      <-> RemoteWrite._validate_relation_by_interface_and_direction meta
            relation_name RemoteWrite.RELATION_INTERFACE_NAME
            RemoteWrite.requires = inr tt).
Proof.
  split; [|split].
  - unfold RemoteWrite._validate_relation_by_interface_and_direction,
      RemoteWrite.has_key.
    split.
    + destruct (RemoteWrite.meta_relations meta !! relation_name)
        as [relation|]; [|discriminate].
      destruct (String.eqb_spec (RemoteWrite.interface_name relation)
                  interface) as [Hi|Hi]; [|discriminate].
      cbn [negb]. intros Hok. exists relation.
      split; [reflexivity|]. split; [exact Hi|].
      destruct expected_role; [discriminate| |].
      * right. split; [reflexivity|].
        destruct (RemoteWrite.meta_requires meta !! relation_name);
          [eauto|discriminate].
      * left. split; [reflexivity|].
        destruct (RemoteWrite.meta_provides meta !! relation_name);
          [eauto|discriminate].
    + intros (relation & -> & <- & Hrole).
      rewrite String.eqb_refl. cbn [negb].
      destruct Hrole as [[-> [x ->]]|[-> [x ->]]]; reflexivity.
  - unfold RemoteWrite.provider_init.
    destruct (RemoteWrite._validate_relation_by_interface_and_direction _ _ _ _)
      as [e|[]]; split; intros; congruence.
  - unfold RemoteWrite.consumer_init.
    destruct (RemoteWrite._validate_relation_by_interface_and_direction _ _ _ _)
      as [e|[]]; split; intros; congruence.
Qed.

(** X8. The checks of the validation come in a fixed order.  An undeclared
    relation is reported as not found; a declared one with another interface
    is reported with the interface found in the metadata, whatever its role;
    only then is the role checked, and the role reported as actual is the
    opposite of the expected one. *)
Theorem validation_errors meta relation_name interface expected_role :
  (RemoteWrite.meta_relations meta !! relation_name = None ->
   RemoteWrite._validate_relation_by_interface_and_direction meta
     relation_name interface expected_role
   = inl (RemoteWrite.RelationNotFoundError relation_name))
  /\ (forall relation,
        RemoteWrite.meta_relations meta !! relation_name = Some relation ->
        RemoteWrite.interface_name relation <> interface ->
        RemoteWrite._validate_relation_by_interface_and_direction meta
          relation_name interface expected_role
        = inl (RemoteWrite.RelationInterfaceMismatchError relation_name
                 interface (RemoteWrite.interface_name relation)))
  /\ (forall relation,
        RemoteWrite.meta_relations meta !! relation_name = Some relation ->
        RemoteWrite.interface_name relation = interface ->
        (RemoteWrite.meta_provides meta !! relation_name = None ->
         RemoteWrite._validate_relation_by_interface_and_direction meta
           relation_name interface RemoteWrite.provides
         = inl (RemoteWrite.RelationRoleMismatchError relation_name
                  RemoteWrite.provides RemoteWrite.requires))
        /\ (RemoteWrite.meta_requires meta !! relation_name = None ->
            RemoteWrite._validate_relation_by_interface_and_direction meta
              relation_name interface RemoteWrite.requires
            = inl (RemoteWrite.RelationRoleMismatchError relation_name
                     RemoteWrite.requires RemoteWrite.provides))
        /\ RemoteWrite._validate_relation_by_interface_and_direction meta
             relation_name interface RemoteWrite.peer
           = inl (RemoteWrite.UnexpectedRelationDirection RemoteWrite.peer)).
Proof.
  unfold RemoteWrite._validate_relation_by_interface_and_direction,
    RemoteWrite.has_key.
  split; [|split].
  - intros ->. reflexivity.
  - intros relation -> Hne.
    destruct (String.eqb_spec (RemoteWrite.interface_name relation) interface);
      [contradiction|reflexivity].
  - intros relation -> <-. rewrite String.eqb_refl. cbn [negb].
    repeat split; try intros ->; reflexivity.
Qed.

(** A charm that declares the relation on the requiring side cannot build a
    provider over it. *)
Lemma validation_errors_witness :
  RemoteWrite._validate_relation_by_interface_and_direction Demo.consumer_meta
    RemoteWrite.DEFAULT_RELATION_NAME RemoteWrite.RELATION_INTERFACE_NAME
    RemoteWrite.provides
  = inl (RemoteWrite.RelationRoleMismatchError "prometheus-remote-write"
           RemoteWrite.provides RemoteWrite.requires).
Proof.
  apply (proj1 (proj2 (proj2 (validation_errors Demo.consumer_meta
           RemoteWrite.DEFAULT_RELATION_NAME
           RemoteWrite.RELATION_INTERFACE_NAME RemoteWrite.provides))
           Demo.remote_write_relation eq_refl eq_refl)).
  reflexivity.
Defined.

(** The same charm builds a consumer. *)
Lemma validation_passes_iff_witness :
  RemoteWrite._validate_relation_by_interface_and_direction Demo.consumer_meta
    RemoteWrite.DEFAULT_RELATION_NAME RemoteWrite.RELATION_INTERFACE_NAME
    RemoteWrite.requires
  = inr tt.
Proof.
  apply (proj1 (validation_passes_iff Demo.consumer_meta _ _ _)).
  exists Demo.remote_write_relation.
  split; [reflexivity|]. split; [reflexivity|].
  right. split; [reflexivity|]. eexists. reflexivity.
Defined.

Lemma unit_endpoint_spec data e :
  In e (RemoteWrite.unit_endpoint data)
  <-> e <> "" /\ data !! "remote_write_endpoint" = Some e.
Proof.
  unfold RemoteWrite.unit_endpoint.
  destruct (data !! "remote_write_endpoint") as [x|].
  - destruct (String.eqb_spec x "") as [->|Hne]; cbn.
    + split; [intros []|]. intros [Hne [= <-]]. contradiction.
    + split.
      * intros [<-|[]]. auto.
      * intros [_ [= ->]]. now left.
  - cbn. split; [intros []|]. intros [_ [=]].
Qed.

Lemma endpoints_in_iff relations e :
  In e (RemoteWrite.endpoints relations)
  <-> e <> ""
      /\ exists relation u,
           In relation relations /\ In u relation
           /\ snd u !! "remote_write_endpoint" = Some e.
Proof.
  unfold RemoteWrite.endpoints. rewrite in_flat_map. split.
  - intros (relation & Hrel & Hin). apply in_flat_map in Hin
      as (u & Hu & He). apply unit_endpoint_spec in He as [Hne Hget].
    split; [exact Hne|]. exists relation, u. auto.
  - intros (Hne & relation & u & Hrel & Hu & Hget).
    exists relation. split; [exact Hrel|]. apply in_flat_map.
    exists u. split; [exact Hu|]. apply unit_endpoint_spec. auto.
Qed.

(** X9. The consumer's [endpoints] are exactly the non-empty values found
    under [remote_write_endpoint] in the data bags of the units of its
    relations: a unit that has not published, or published an empty text, is
    skipped.  [configs] wraps each of them as a [url] entry, and both are
    empty when there is no relation. *)
Theorem consumer_endpoints_spec relations e :
  (In e (RemoteWrite.endpoints relations)
   <-> e <> ""
       /\ exists relation u,
            In relation relations /\ In u relation
            /\ snd u !! "remote_write_endpoint" = Some e)
  /\ (In (Py.VDict [("url", Py.VStr e)]) (RemoteWrite.configs relations)
      <-> In e (RemoteWrite.endpoints relations))
  /\ length (RemoteWrite.configs relations)
     = length (RemoteWrite.endpoints relations)
  /\ RemoteWrite.endpoints [] = [].
Proof.
  split; [|split; [|split; [apply length_map|reflexivity]]].
  - apply endpoints_in_iff.
  - unfold RemoteWrite.configs. rewrite in_map_iff. split.
    + intros (x & [= ->] & Hin). exact Hin.
    + intros Hin. exists e. auto.
Qed.

(** Two units, one of which has not published yet. *)
Lemma consumer_endpoints_spec_witness :
  In "http://10.0.0.1:9090/api/v1/write"
    (RemoteWrite.endpoints
       [[("prometheus/0",
          {["remote_write_endpoint" := "http://10.0.0.1:9090/api/v1/write"]});
         ("prometheus/1", ∅)]]).
Proof.
  apply (proj1 (consumer_endpoints_spec _ _)). split; [discriminate|].
  eexists _, ("prometheus/0", _). split; [now left|].
  split; [now left|]. reflexivity.
Defined.

Lemma append_nonempty a b : b <> "" -> a +:+ b <> "".
Proof. intros Hb. destruct a; [exact Hb|discriminate]. Qed.

Lemma endpoint_url_nonempty schema address port path bind_address :
  RemoteWrite.endpoint_url schema address port path bind_address <> "".
Proof.
  unfold RemoteWrite.endpoint_url. apply append_nonempty. discriminate.
Qed.

(** X10. What a provider publishes with [set_endpoint] is read back by a
    consumer: the URL is never empty, so every relation of the consumer in
    which a unit carries a data bag written by [set_endpoint] lists that
    URL among its endpoints. *)
Theorem published_endpoint_is_read
    schema address port path bind_address provider_relations data
    (relations : list RemoteWrite.Relation) relation unit_name :
  In data (RemoteWrite.set_endpoint schema address port path bind_address
             provider_relations) ->
  In relation relations -> In (unit_name, data) relation ->
  In (RemoteWrite.endpoint_url schema address port path bind_address)
    (RemoteWrite.endpoints relations).
Proof.
  intros Hdata Hrel Hunit. apply endpoints_in_iff.
  split; [apply endpoint_url_nonempty|].
  exists relation, (unit_name, data). split; [exact Hrel|].
  split; [exact Hunit|]. cbn [snd].
  unfold RemoteWrite.set_endpoint in Hdata.
  apply in_map_iff in Hdata as (d & <- & _). apply lookup_insert_eq.
Qed.

(** A provider unit publishes on its relation, and the consumer on the other
    side of that relation reads the URL. *)
Lemma published_endpoint_is_read_witness :
  In (RemoteWrite.endpoint_url "http" (Some "10.0.0.1")
        (RemoteWrite.PortInt 9090) "/api/v1/write" "192.168.0.1")
    (RemoteWrite.endpoints
       [[("prometheus/0",
          <["remote_write_endpoint" :=
              RemoteWrite.endpoint_url "http" (Some "10.0.0.1")
                (RemoteWrite.PortInt 9090) "/api/v1/write" "192.168.0.1"]>
            ∅)]]).
Proof.
  apply (published_endpoint_is_read "http" (Some "10.0.0.1")
           (RemoteWrite.PortInt 9090) "/api/v1/write" "192.168.0.1" [∅]
           (<["remote_write_endpoint" :=
                RemoteWrite.endpoint_url "http" (Some "10.0.0.1")
                  (RemoteWrite.PortInt 9090) "/api/v1/write" "192.168.0.1"]>
              ∅)
           _
           [("prometheus/0",
             <["remote_write_endpoint" :=
                 RemoteWrite.endpoint_url "http" (Some "10.0.0.1")
                   (RemoteWrite.PortInt 9090) "/api/v1/write"
                   "192.168.0.1"]> ∅)]
           "prometheus/0").
  - left. reflexivity.
  - left. reflexivity.
  - left. reflexivity.
Defined.

(** ** The Grafana relation *)

(** X11. [_on_grafana_changed] publishes three keys in the unit's data bag:
    the port as decimal text that reads back as the configured port, the
    source type [prometheus] and the binding's address.  Every other key of
    the bag keeps its value, and handling the event again changes
    nothing. *)
Theorem grafana_source_data config bind_address (data : gmap string string) :
  (exists port_text,
     _on_grafana_changed config bind_address data !! "port" = Some port_text
     /\ Py.int port_text = Some (cfg_port config))
  /\ _on_grafana_changed config bind_address data !! "source-type"
     = Some "prometheus"
  /\ _on_grafana_changed config bind_address data !! "private-address"
     = Some bind_address
  /\ (forall key, key <> "port" -> key <> "source-type" ->
        key <> "private-address" ->
        _on_grafana_changed config bind_address data !! key = data !! key)
  /\ _on_grafana_changed config bind_address
       (_on_grafana_changed config bind_address data)
     = _on_grafana_changed config bind_address data.
Proof.
  unfold _on_grafana_changed. cbv zeta. split; [|split; [|split; [|split]]].
  - exists (Py.str_of_int (cfg_port config)). split.
    + rewrite !lookup_insert_ne by discriminate. apply lookup_insert_eq.
    + apply int_str_of_int.
  - rewrite lookup_insert_ne by discriminate. apply lookup_insert_eq.
  - apply lookup_insert_eq.
  - intros key H1 H2 H3. now rewrite !lookup_insert_ne by congruence.
  - apply map_eq. intros key.
    destruct (decide (key = "private-address")) as [->|H3];
      [now rewrite !lookup_insert_eq|].
    rewrite !(lookup_insert_ne _ "private-address") by congruence.
    destruct (decide (key = "source-type")) as [->|H2];
      [now rewrite !lookup_insert_eq|].
    rewrite !(lookup_insert_ne _ "source-type") by congruence.
    destruct (decide (key = "port")) as [->|H1];
      [now rewrite !lookup_insert_eq|].
    rewrite !(lookup_insert_ne _ "port") by congruence.
    rewrite !lookup_insert_ne by congruence. reflexivity.
Qed.

(** A bag that already holds a key of another charm. *)
Lemma grafana_source_data_witness :
  _on_grafana_changed Demo.config0 "10.1.2.3" {["egress-subnets" := "10.1.2.3/32"]}
    !! "egress-subnets"
  = Some "10.1.2.3/32".
Proof.
  rewrite (proj1 (proj2 (proj2 (proj2
             (grafana_source_data Demo.config0 "10.1.2.3"
                {["egress-subnets" := "10.1.2.3/32"]}))))
             "egress-subnets") by discriminate.
  reflexivity.
Defined.

(** ** More on the reconciliation pass *)

#[local] Instance inputs_frame_preorder : PreOrder inputs_frame.
Proof.
  split.
  - intros w. repeat split.
  - intros w1 w2 w3 (A1 & B1 & C1 & D1 & E1) (A2 & B2 & C2 & D2 & E2).
    repeat split; congruence.
Qed.

Section Pass.
Context `{Libs}.

(** A relation kept by the four kinds of update that [_configure] makes is
    kept by [_configure]. *)
Lemma configure_preserves (R : World -> World -> Prop) `{!PreOrder R} :
  (forall w c, R w (with_container c w)) ->
  (forall w h, R w (with_stored (set_prometheus_config_hash h (stored w)) w)) ->
  (forall w s, R w (with_app_status s w)) ->
  (forall w s, R w (with_unit_status s w)) ->
  preserves R _configure.
Proof.
  intros Hc Hh Ha Hu. unfold _configure.
  apply preserves_bind; [assumption|now apply preserves_pure|]. intros text.
  apply preserves_bind; [assumption|now apply preserves_gets|].
  intros stored_hash.
  apply preserves_bind; [assumption| |].
  - case_bool_decide; [|now apply preserves_ret].
    apply preserves_try_except; [assumption| |now apply preserves_ret].
    apply preserves_bind; [assumption| |intros _].
    + apply preserves_request; [assumption|]. intros w c _. apply Hc.
    + apply preserves_bind;
        [assumption| |intros _; now apply preserves_ret].
      apply preserves_modify. intros w. apply Hh.
  - intros proceed. destruct proceed; cbn [negb]; [|now apply preserves_ret].
    unfold setup_workload.
    repeat first
      [ apply preserves_bind; [assumption| |intros ?]
      | apply preserves_when; [assumption|]
      | now apply preserves_gets
      | now apply preserves_query
      | apply preserves_request; [assumption|]; intros w c _; apply Hc ].
    + apply preserves_modify. intros w. apply Ha.
    + apply preserves_modify. intros w. apply Hu.
Qed.

Lemma configure_inputs : preserves inputs_frame _configure.
Proof. apply configure_preserves; try typeclasses eauto; intros; repeat split. Qed.

Lemma prometheus_config_inputs config s s' jobs :
  stored_alertmanagers s' = stored_alertmanagers s ->
  stored_provider_ready s' = stored_provider_ready s ->
  _prometheus_config config s' jobs = _prometheus_config config s jobs.
Proof.
  intros Ha Hr. unfold _prometheus_config, scrape_config_doc, _alerting_config.
  now rewrite Ha, Hr.
Qed.

Lemma with_container_same w : with_container (container w) w = w.
Proof. destruct w. reflexivity. Qed.

Lemma consistent_ext w w' :
  stored_prometheus_config_hash (stored w')
  = stored_prometheus_config_hash (stored w) ->
  files (container w') = files (container w) ->
  applied_consistent w -> applied_consistent w'.
Proof. intros Hh Hf Hc h. rewrite Hh, Hf. apply Hc. Qed.

Lemma configure_consistent w :
  applied_consistent w -> applied_consistent (run _configure w).
Proof.
  intros Hc. unfold run.
  destruct (_prometheus_config (config w) (stored w) (peer_jobs w))
    as [e|text] eqn:E.
  { now rewrite (configure_synthesis_error _ _ E). }
  destruct (decide (stored_prometheus_config_hash (stored w)
                    = Some (md5_hexdigest (fingerprint_input text))))
    as [Hh|Hh].
  { rewrite (configure_unchanged _ _ E Hh).
    destruct (setup_workload_frame w) as (_ & Hst & _ & _ & _ & Hf & _).
    apply (consistent_ext w); [now rewrite Hst|exact Hf|exact Hc]. }
  destruct (pebble_push_cases PROMETHEUS_CONFIG text (container w))
    as [[_ Hp]|[_ Hp]].
  { now rewrite (configure_push_refused _ _ E Hh Hp). }
  rewrite (configure_pushed _ _ _ E Hh Hp). fold (pushed text w).
  destruct (setup_workload_frame (pushed text w))
    as (_ & Hst & _ & _ & _ & Hf & _).
  intros h. rewrite Hst, Hf. cbn. intros [= <-].
  exists (encode_utf8 text). split; [apply lookup_insert_eq|reflexivity].
Qed.

Lemma step_consistent op w :
  applied_consistent w -> applied_consistent (step op w).
Proof.
  intros Hc. destruct op; cbn [step].
  - unfold run, provider_ready, bind, gets, when.
    destruct (negb _ && _); [|exact Hc].
    now apply (consistent_ext w).
  - now apply configure_consistent.
  - now apply configure_consistent.
  - now apply configure_consistent.
  - now apply (consistent_ext w).
  - unfold run, _on_alertmanager_changed, bind, gets.
    destruct (negb (leader w)); [exact Hc|].
    destruct (json_loads _) as [addrs|]; [|exact Hc].
    apply (configure_consistent
             (with_stored (set_alertmanagers addrs (stored w)) w)).
    now apply (consistent_ext w).
  - unfold run, _on_alertmanager_broken, bind, gets.
    destruct (negb (leader w)); [exact Hc|].
    destruct (py_clear _) as [e|cleared]; [exact Hc|].
    apply (configure_consistent
             (with_stored (set_alertmanagers cleared (stored w)) w)).
    now apply (consistent_ext w).
Qed.

Lemma setup_workload_online_exact w :
  connected (container w) = true -> managed (container w) ->
  setup_workload w
  = (set_statuses
       (with_container
          (if decide (plan_services (container w)
                      = layer_services (_prometheus_layer (config w)))
           then container w
           else replanned (_prometheus_layer (config w)) (container w)) w),
     inr tt).
Proof.
  intros Hc Hm. destruct (decide _) as [Hp|Hp].
  - rewrite with_container_same. now apply setup_workload_in_place.
  - now apply setup_workload_replan.
Qed.

Lemma set_statuses_statuses w :
  unit_status (set_statuses w) = Some ActiveStatus
  /\ app_status (set_statuses w)
     = (if leader w then Some ActiveStatus else app_status w).
Proof. unfold set_statuses. destruct (leader w); split; reflexivity. Qed.

Lemma replanned_active layer c :
  "prometheus" ∈ active (replanned layer c).
Proof.
  unfold replanned. cbv zeta. cbn [start_state log_call active].
  apply elem_of_union_r, elem_of_singleton. reflexivity.
Qed.

Lemma configure_offline_unchanged w text :
  _prometheus_config (config w) (stored w) (peer_jobs w) = inr text ->
  stored_prometheus_config_hash (stored w)
  = Some (md5_hexdigest (fingerprint_input text)) ->
  connected (container w) = false ->
  _configure w = (w, inl Py.ConnectionError).
Proof.
  intros E Hh Hc. rewrite (configure_unchanged _ _ E Hh).
  now apply setup_workload_offline.
Qed.

Lemma alerting_config_unsized stored e :
  Py.len (stored_alertmanagers stored) = inl e ->
  _alerting_config stored = inl e /\ e = Py.TypeError.
Proof.
  intros Hlen. unfold _alerting_config. rewrite Hlen. split; [reflexivity|].
  destruct (stored_alertmanagers stored); cbn in Hlen; congruence.
Qed.

Lemma doc_without_endpoints config stored jobs :
  stored_alertmanagers stored = Py.VList [] ->
  exists doc, scrape_config_doc config stored jobs = inr doc
              /\ Py.dict_get "alerting" doc = None.
Proof.
  intros Hs.
  assert (Hlen : Py.len (stored_alertmanagers stored) = inr 0%nat)
    by now rewrite Hs.
  destruct (scrape_config_doc_sized config stored jobs _ Hlen)
    as (a & Ha & Hdoc).
  rewrite (alerting_config_list _ _ Hs) in Ha. injection Ha as <-.
  eexists. split; [exact Hdoc|]. cbv zeta. cbn [Py.truthy String.eqb negb].
  destruct (stored_provider_ready stored);
    rewrite ?dict_get_fold_append_ne by discriminate;
    rewrite dict_get_list_append_ne by discriminate; reflexivity.
Qed.

End Pass.

(** X12. A pass changes neither the options, the announced jobs, the
    leadership, the stored alertmanagers nor the readiness flag, whether it
    completes, gives up or raises; so the document built right after a pass
    is the document the pass built. *)
Theorem pass_keeps_inputs `{Libs} w :
  inputs_frame w (run _configure w)
  /\ _prometheus_config (config (run _configure w))
       (stored (run _configure w)) (peer_jobs (run _configure w))
     = _prometheus_config (config w) (stored w) (peer_jobs w).
Proof.
  pose proof (configure_inputs w) as Hf. split; [exact Hf|].
  destruct Hf as (Hc & Hj & _ & Ha & Hr). unfold run.
  rewrite Hc, Hj. now apply prometheus_config_inputs.
Qed.

(** X13. The stored fingerprint and the pushed file go together: if in some
    state the stored fingerprint, when there is one, is the digest of the
    file at the configuration path, this still holds after any sequence of
    handlers and readiness reads, whatever Pebble answers and whatever is
    raised on the way. *)
Theorem fingerprint_matches_file `{Libs} ops w :
  applied_consistent w -> applied_consistent (run_ops ops w).
Proof.
  revert w. induction ops as [|op ops IH]; intros w Hc; [exact Hc|].
  cbn. apply IH. now apply step_consistent.
Qed.

(** A new unit has no fingerprint; after a pass and a change of endpoints
    the fingerprint is that of the file in the container. *)
Lemma fingerprint_matches_file_witness :
  exists data,
    files
      (container
         (run_ops (H := Demo.libs)
            [OpPebbleReady; OpAlertmanagerChanged (Some Demo.addrs_payload)]
            Demo.world0)) !! PROMETHEUS_CONFIG = Some data
    /\ Some (@md5_hexdigest Demo.libs data)
       = stored_prometheus_config_hash
           (stored
              (run_ops (H := Demo.libs)
                 [OpPebbleReady;
                  OpAlertmanagerChanged (Some Demo.addrs_payload)]
                 Demo.world0)).
Proof.
  assert (Hinit : @applied_consistent Demo.libs Demo.world0)
    by (intros h Hh; discriminate Hh).
  pose proof (@fingerprint_matches_file Demo.libs
                [OpPebbleReady; OpAlertmanagerChanged (Some Demo.addrs_payload)]
                Demo.world0 Hinit) as Hc.
  destruct (stored_prometheus_config_hash
              (stored
                 (run_ops (H := Demo.libs)
                    [OpPebbleReady;
                     OpAlertmanagerChanged (Some Demo.addrs_payload)]
                    Demo.world0))) as [h|] eqn:Hh; [|vm_compute in Hh; discriminate Hh].
  destruct (Hc h Hh) as (data & Hf & Hm).
  exists data. split; [exact Hf|now rewrite Hm].
Defined.

(** X14. On a managed container that answers, and with a document that can
    be built, the pass returns normally and leaves the unit reconciled: the
    stored fingerprint is that of the document, the plan holds exactly the
    [prometheus] service with the command line of the options, the unit
    status is active, the application status is active on the leader and
    untouched elsewhere, and if the plan had to change the service is
    running. *)
Theorem pass_completes_online `{Libs} w text :
  connected (container w) = true -> managed (container w) ->
  _prometheus_config (config w) (stored w) (peer_jobs w) = inr text ->
  outcome _configure w = inr tt
  /\ stored_prometheus_config_hash (stored (run _configure w))
     = Some (md5_hexdigest (fingerprint_input text))
  /\ plan_services (container (run _configure w))
     = {["prometheus" :=
           {| svc_override := "replace"; svc_summary := "prometheus daemon";
              svc_command := _command (config w);
              svc_startup := "enabled" |}]}
  /\ unit_status (run _configure w) = Some ActiveStatus
  /\ app_status (run _configure w)
     = (if leader w then Some ActiveStatus else app_status w)
  /\ (plan_services (container w)
      <> layer_services (_prometheus_layer (config w)) ->
      "prometheus" ∈ active (container (run _configure w))).
Proof.
  intros Hc Hm E.
  assert (Hgen : forall wp,
    connected (container wp) = true -> managed (container wp) ->
    config wp = config w -> leader wp = leader w ->
    app_status wp = app_status w ->
    plan_services (container wp) = plan_services (container w) ->
    _configure w = setup_workload wp ->
    stored_prometheus_config_hash (stored wp)
    = Some (md5_hexdigest (fingerprint_input text)) ->
    outcome _configure w = inr tt
    /\ stored_prometheus_config_hash (stored (run _configure w))
       = Some (md5_hexdigest (fingerprint_input text))
    /\ plan_services (container (run _configure w))
       = layer_services (_prometheus_layer (config w))
    /\ unit_status (run _configure w) = Some ActiveStatus
    /\ app_status (run _configure w)
       = (if leader w then Some ActiveStatus else app_status w)
    /\ (plan_services (container w)
        <> layer_services (_prometheus_layer (config w)) ->
        "prometheus" ∈ active (container (run _configure w)))).
  { intros wp Hcp Hmp Hcfg Hld Happ Hplan Hrun Hhash.
    unfold outcome, run. rewrite Hrun.
    rewrite (setup_workload_online_exact wp Hcp Hmp). cbn [fst snd].
    match goal with |- context [set_statuses ?x] =>
      destruct (set_statuses_parts x) as (_ & Hst & _ & Hct);
      destruct (set_statuses_statuses x) as (Hus & Has)
    end.
    rewrite Hst, Hct, Hus, Has.
    cbn [stored container leader app_status with_container].
    rewrite Hld, Happ, Hcfg in *.
    split; [reflexivity|]. split; [exact Hhash|].
    destruct (decide (plan_services (container wp)
                      = layer_services (_prometheus_layer (config w))))
      as [Hp|Hp].
    - split; [exact Hp|]. split; [reflexivity|]. split; [reflexivity|].
      intros Hne. rewrite <- Hplan in Hne. contradiction.
    - destruct (managed_add_layer (config w) (container wp)
                  (replanned (_prometheus_layer (config w)) (container wp))
                  Hmp (replanned_layers _ _)) as [Hplan' _].
      split; [exact Hplan'|]. split; [reflexivity|]. split; [reflexivity|].
      intros _. apply replanned_active. }
  destruct (decide (stored_prometheus_config_hash (stored w)
                    = Some (md5_hexdigest (fingerprint_input text))))
    as [Hh|Hh].
  - apply (Hgen w); auto. now apply (configure_unchanged w text).
  - destruct (pebble_push_cases PROMETHEUS_CONFIG text (container w))
      as [[Hc' _]|[_ Hp]]; [congruence|].
    apply (Hgen (pushed text w)).
    + exact Hc.
    + now apply (managed_layers (container w)).
    + reflexivity.
    + reflexivity.
    + reflexivity.
    + reflexivity.
    + now apply (configure_pushed w text).
    + reflexivity.
Qed.

(** The first pass of the sample unit. *)
Lemma pass_completes_online_witness :
  outcome (@_configure Demo.libs) Demo.world0 = inr tt
  /\ unit_status (run (@_configure Demo.libs) Demo.world0)
     = Some ActiveStatus
  /\ "prometheus" ∈ active (container (run (@_configure Demo.libs) Demo.world0)).
Proof.
  destruct (@pass_completes_online Demo.libs Demo.world0 Demo.config_text0
              eq_refl (or_introl eq_refl) eq_refl)
    as (Hout & _ & _ & Hunit & _ & Hrun).
  split; [exact Hout|]. split; [exact Hunit|].
  apply Hrun. intros Heq.
  assert (Hnone : plan_services (container Demo.world0) !! "prometheus"
                  = None) by reflexivity.
  rewrite Heq in Hnone. cbn [_prometheus_layer layer_services] in Hnone.
  rewrite lookup_singleton_eq in Hnone. discriminate Hnone.
Defined.

(** X15. Only the push is guarded.  When the fingerprint is unchanged and
    Pebble does not answer, the pass is not abandoned quietly: reading the
    plan raises [ConnectionError] out of [_configure], with the state left
    as it was. *)
Theorem pass_raises_when_unreachable `{Libs} w text :
  _prometheus_config (config w) (stored w) (peer_jobs w) = inr text ->
  stored_prometheus_config_hash (stored w)
  = Some (md5_hexdigest (fingerprint_input text)) ->
  connected (container w) = false ->
  outcome _configure w = inl Py.ConnectionError
  /\ run _configure w = w.
Proof.
  intros E Hh Hc. unfold outcome, run.
  rewrite (configure_offline_unchanged _ _ E Hh Hc). split; reflexivity.
Qed.

(** The sample unit after its first pass, when Pebble stops answering. *)
Lemma pass_raises_when_unreachable_witness :
  outcome (@_configure Demo.libs)
    (reconnect false (run (@_configure Demo.libs) Demo.world0))
  = inl Py.ConnectionError
  /\ run (@_configure Demo.libs)
       (reconnect false (run (@_configure Demo.libs) Demo.world0))
     = reconnect false (run (@_configure Demo.libs) Demo.world0).
Proof.
  apply (@pass_raises_when_unreachable Demo.libs
           (reconnect false (run (@_configure Demo.libs) Demo.world0))
           Demo.config_text0);
    vm_compute; reflexivity.
Defined.

(** X16. A change of the document alone does not restart Prometheus: when
    the fingerprint differs but the plan already has the services of the
    layer, the pass pushes the new file and sends Pebble nothing else; the
    layers and the running services are as before. *)
Theorem document_change_alone_does_not_restart `{Libs} w text :
  connected (container w) = true ->
  _prometheus_config (config w) (stored w) (peer_jobs w) = inr text ->
  stored_prometheus_config_hash (stored w)
  <> Some (md5_hexdigest (fingerprint_input text)) ->
  plan_services (container w) = layer_services (_prometheus_layer (config w)) ->
  outcome _configure w = inr tt
  /\ calls_during _configure w = [Push PROMETHEUS_CONFIG (encode_utf8 text)]
  /\ layers (container (run _configure w)) = layers (container w)
  /\ active (container (run _configure w)) = active (container w)
  /\ stored_prometheus_config_hash (stored (run _configure w))
     = Some (md5_hexdigest (fingerprint_input text)).
Proof.
  intros Hc E Hh Hp.
  destruct (pebble_push_cases PROMETHEUS_CONFIG text (container w))
    as [[Hc' _]|[_ Hpush]]; [congruence|].
  pose proof (configure_pushed _ _ _ E Hh Hpush) as Hrun.
  fold (pushed text w) in Hrun.
  rewrite (setup_workload_in_place (pushed text w) Hc Hp) in Hrun.
  destruct (set_statuses_parts (pushed text w)) as (_ & Hst & _ & Hct).
  assert (Hw : run _configure w = set_statuses (pushed text w))
    by (unfold run; now rewrite Hrun).
  split; [unfold outcome; now rewrite Hrun|].
  split; [apply calls_during_app|]; rewrite Hw, ?Hct, ?Hst; repeat split.
Qed.

(** The sample unit after its first pass, when an alertmanager appears. *)
Lemma document_change_alone_does_not_restart_witness :
  exists text,
    calls_during (@_configure Demo.libs)
      (with_stored
         (set_alertmanagers (Py.VList [Py.VStr "10.0.0.5:9093"])
            (stored (run (@_configure Demo.libs) Demo.world0)))
         (run (@_configure Demo.libs) Demo.world0))
    = [Push PROMETHEUS_CONFIG (encode_utf8 text)].
Proof.
  eexists.
  eapply (@document_change_alone_does_not_restart Demo.libs
            (with_stored
               (set_alertmanagers (Py.VList [Py.VStr "10.0.0.5:9093"])
                  (stored (run (@_configure Demo.libs) Demo.world0)))
               (run (@_configure Demo.libs) Demo.world0))).
  - reflexivity.
  - vm_compute. reflexivity.
  - vm_compute. discriminate.
  - vm_compute. reflexivity.
Defined.

(** ** The alertmanager handlers on the leader *)

(** X17. On the leader, [_on_alertmanager_changed] stores whatever the
    [addrs] field decodes to (a missing field counts as the empty list
    "[]") before it runs the pass, and that value is still the stored one
    when the handler ends, however the pass ends.  A field that is not JSON
    raises [ValueError] and leaves the state as it was. *)
Theorem leader_stores_announced_endpoints `{Libs} w addrs_field :
  leader w = true ->
  (json_loads (default "[]" addrs_field) = None ->
   _on_alertmanager_changed addrs_field w = (w, inl Py.ValueError))
  /\ (forall addrs,
        json_loads (default "[]" addrs_field) = Some addrs ->
        stored_alertmanagers
          (stored (run (_on_alertmanager_changed addrs_field) w)) = addrs
        /\ outcome (_on_alertmanager_changed addrs_field) w
           = outcome _configure
               (with_stored (set_alertmanagers addrs (stored w)) w)).
Proof.
  intros Hl. unfold _on_alertmanager_changed, run, outcome, bind, gets.
  rewrite Hl. cbn [negb]. split.
  - intros ->. reflexivity.
  - intros addrs ->. unfold modify. split; [|reflexivity].
    now destruct (configure_inputs
                    (with_stored (set_alertmanagers addrs (stored w)) w))
      as (_ & _ & _ & -> & _).
Qed.

(** The leader of the sample deployment receives one endpoint. *)
Lemma leader_stores_announced_endpoints_witness :
  stored_alertmanagers
    (stored
       (run (@_on_alertmanager_changed Demo.libs (Some Demo.addrs_payload))
          Demo.world0))
  = Py.VList [Py.VStr "10.0.0.5:9093"].
Proof.
  apply (proj2 (@leader_stores_announced_endpoints Demo.libs Demo.world0
                  (Some Demo.addrs_payload) eq_refl)).
  reflexivity.
Defined.

(** X18. On the leader, when the relation with Alertmanager is broken and
    the stored endpoints are a list, the list is empty when the handler
    ends, however the pass ends, and the document built from then on has no
    [alerting] key.  Stored endpoints that cannot be cleared (a text, a
    number) raise [AttributeError] and leave the state as it was. *)
Theorem leader_clears_endpoints `{Libs} w :
  leader w = true ->
  (forall targets,
     stored_alertmanagers (stored w) = Py.VList targets ->
     stored_alertmanagers (stored (run _on_alertmanager_broken w))
     = Py.VList []
     /\ exists doc,
          scrape_config_doc (config (run _on_alertmanager_broken w))
            (stored (run _on_alertmanager_broken w))
            (peer_jobs (run _on_alertmanager_broken w)) = inr doc
          /\ Py.dict_get "alerting" doc = None)
  /\ (py_clear (stored_alertmanagers (stored w)) = inl Py.AttributeError ->
      _on_alertmanager_broken w = (w, inl Py.AttributeError)).
Proof.
  intros Hl. split.
  - intros targets Hs.
    assert (Hst : stored_alertmanagers
                    (stored (run _on_alertmanager_broken w)) = Py.VList []).
    { unfold _on_alertmanager_broken, run, bind, gets, modify.
      rewrite Hl. cbn [negb]. cbv beta. rewrite Hs. cbn [py_clear].
      now destruct (configure_inputs
                      (with_stored
                         (set_alertmanagers (Py.VList []) (stored w)) w))
        as (_ & _ & _ & -> & _). }
    split; [exact Hst|]. now apply doc_without_endpoints.
  - intros Hclear. unfold _on_alertmanager_broken, bind, gets.
    rewrite Hl. cbn [negb]. cbv beta. rewrite Hclear. reflexivity.
Qed.

(** The endpoint announced above goes away. *)
Lemma leader_clears_endpoints_witness :
  stored_alertmanagers
    (stored
       (run (@_on_alertmanager_broken Demo.libs)
          (with_stored
             (set_alertmanagers (Py.VList [Py.VStr "10.0.0.5:9093"])
                Demo.stored0)
             Demo.world0)))
  = Py.VList [].
Proof.
  apply (proj1 (@leader_clears_endpoints Demo.libs
                  (with_stored
                     (set_alertmanagers (Py.VList [Py.VStr "10.0.0.5:9093"])
                        Demo.stored0)
                     Demo.world0) eq_refl) [Py.VStr "10.0.0.5:9093"]).
  reflexivity.
Defined.

(** X19. Stored alertmanagers without a length (a number, a boolean, null)
    stop every pass before it reaches Pebble: [_configure] raises
    [TypeError] and changes nothing, so neither a push nor a restart can
    happen until the stored value is replaced. *)
Theorem unsized_alertmanagers_raise `{Libs} w e :
  Py.len (stored_alertmanagers (stored w)) = inl e ->
  e = Py.TypeError
  /\ _configure w = (w, inl Py.TypeError)
  /\ calls_during _configure w = [].
Proof.
  intros Hlen.
  destruct (alerting_config_unsized _ _ Hlen) as [Ha ->].
  assert (E : _prometheus_config (config w) (stored w) (peer_jobs w)
              = inl Py.TypeError).
  { unfold _prometheus_config, scrape_config_doc. now rewrite Ha. }
  pose proof (configure_synthesis_error _ _ E) as Hrun.
  split; [reflexivity|]. split; [exact Hrun|].
  apply calls_during_same. unfold run. now rewrite Hrun.
Qed.

(** The field [addrs] held the number 3. *)
Lemma unsized_alertmanagers_raise_witness :
  @_configure Demo.libs
    (with_stored (set_alertmanagers (Py.VInt 3) Demo.stored0) Demo.world0)
  = (with_stored (set_alertmanagers (Py.VInt 3) Demo.stored0) Demo.world0,
     inl Py.TypeError).
Proof.
  apply (@unsized_alertmanagers_raise Demo.libs
           (with_stored (set_alertmanagers (Py.VInt 3) Demo.stored0)
              Demo.world0) Py.TypeError).
  reflexivity.
Defined.

(** ** The version probe *)

Lemma version_truthy_iff info :
  Py.truthy (version info) = true
  <-> exists d v, info = Some d /\ Py.dict_get "version" d = Some v
                  /\ Py.truthy v = true.
Proof.
  unfold version. split.
  - destruct info as [d|]; [|discriminate].
    destruct (Py.truthy (Py.VDict d)); [|discriminate].
    destruct (Py.dict_get "version" d) as [v|] eqn:Hv; [|discriminate].
    intros Ht. exists d, v. auto.
  - intros (d & v & -> & Hv & Ht).
    assert (Hd : Py.truthy (Py.VDict d) = true)
      by (destruct d; [discriminate Hv|reflexivity]).
    now rewrite Hd, Hv.
Qed.

(** X20. The readiness flag is set by a probe only when the answer holds a
    [version] entry that is truthy: while the flag is unset, an unreachable
    server, an answer without a version or with an empty version leaves the
    state as it was and the property returns [False]; an answer with a
    version sets the flag, changes nothing else, and the property returns
    [True]. *)
Theorem readiness_needs_a_version w info :
  stored_provider_ready (stored w) = false ->
  ((exists d v, info = Some d /\ Py.dict_get "version" d = Some v
                /\ Py.truthy v = true) ->
   provider_ready info w
   = (with_stored (set_provider_ready true (stored w)) w, inr true))
  /\ ((forall d v, info = Some d -> Py.dict_get "version" d = Some v ->
         Py.truthy v = false) ->
      provider_ready info w = (w, inr false)).
Proof.
  intros Hw. unfold provider_ready, bind, gets, when, modify. rewrite Hw.
  cbn [negb andb]. split.
  - intros Hv. apply version_truthy_iff in Hv. now rewrite Hv.
  - intros Hno. destruct (Py.truthy (version info)) eqn:Ht.
    + apply version_truthy_iff in Ht as (d & v & Hi & Hv & Htv).
      rewrite (Hno d v Hi Hv) in Htv. discriminate Htv.
    + cbn. now rewrite Hw.
Qed.

(** An answer with an empty version does not make the unit ready. *)
Lemma readiness_needs_a_version_witness :
  provider_ready (Some [("version", Py.VStr "")]) Demo.world0
  = (Demo.world0, inr false).
Proof.
  apply (proj2 (readiness_needs_a_version Demo.world0
                  (Some [("version", Py.VStr "")]) eq_refl)).
  intros d v [= <-] [= <-]. reflexivity.
Defined.

(** ** What Pebble is asked, and what the plan holds *)

#[local] Set Warnings "-clear-no-such-hyp".

Lemma combine_services_dom base new :
  dom (combine_services base new) ⊆ dom base ∪ dom new.
Proof.
  unfold combine_services.
  apply (map_fold_weak_ind
           (fun r m => dom r ⊆ dom base ∪ dom m) apply_service base).
  - rewrite dom_empty_L. set_solver.
  - intros i x m r _ IH. unfold apply_service.
    destruct (String.eqb (svc_override x) "merge");
      [destruct (r !! i)|]; rewrite !dom_insert_L; set_solver.
Qed.

Lemma managed_plan_services c :
  managed c -> dom (plan_services c) ⊆ {["prometheus"]}.
Proof.
  unfold plan_services. intros [->|(l & -> & Hdom)]; cbn [fold_left snd].
  - rewrite dom_empty_L. set_solver.
  - pose proof (combine_services_dom ∅ (layer_services l)) as Hsub.
    rewrite dom_empty_L in Hsub. set_solver.
Qed.

(** X21. The charm registers nothing but its own service.  From a container
    without layers, after any sequence of handlers and readiness reads the
    layer stack is empty or is the single layer labelled [prometheus], and
    every service of the plan is named [prometheus]. *)
Theorem plan_holds_only_prometheus `{Libs} ops w :
  layers (container w) = [] ->
  (layers (container (run_ops ops w)) = []
   \/ exists l, layers (container (run_ops ops w)) = [("prometheus", l)])
  /\ forall name,
       is_Some (plan_services (container (run_ops ops w)) !! name) ->
       name = "prometheus".
Proof.
  intros Hnil.
  assert (Hm : managed (container (run_ops ops w))).
  { assert (Hm0 : managed (container w)) by now left.
    clear Hnil. revert w Hm0.
    induction ops as [|op ops IH]; intros w Hm0; [exact Hm0|].
    cbn. apply IH. now apply step_managed. }
  split.
  - destruct Hm as [Hl|(l & Hl & _)]; [now left|right; eauto].
  - intros name Hname. apply elem_of_dom in Hname.
    apply (managed_plan_services _ Hm) in Hname.
    now apply elem_of_singleton in Hname.
Qed.

(** The sample unit after three events. *)
Lemma plan_holds_only_prometheus_witness :
  (layers
     (container
        (run_ops (H := Demo.libs)
           [OpPebbleReady; OpConfigChanged; OpAlertmanagerBroken]
           Demo.world0)) = []
   \/ exists l,
        layers
          (container
             (run_ops (H := Demo.libs)
                [OpPebbleReady; OpConfigChanged; OpAlertmanagerBroken]
                Demo.world0)) = [("prometheus", l)]).
Proof.
  apply (proj1 (@plan_holds_only_prometheus Demo.libs
                  [OpPebbleReady; OpConfigChanged; OpAlertmanagerBroken]
                  Demo.world0 eq_refl)).
Defined.

(** X22. The requests of one pass, in full.  On a managed container that
    answers, with a document that can be built, the pass sends the push of
    the document if and only if its fingerprint is not the stored one, and
    then, if and only if the services of the plan are not those of the
    layer, the layer followed by a stop when the service was running and by
    a start; nothing else, and in this order. *)
Theorem pass_requests `{Libs} w text :
  connected (container w) = true -> managed (container w) ->
  _prometheus_config (config w) (stored w) (peer_jobs w) = inr text ->
  calls_during _configure w
  = ((if decide (stored_prometheus_config_hash (stored w)
                 = Some (md5_hexdigest (fingerprint_input text)))
      then []
      else [Push PROMETHEUS_CONFIG (encode_utf8 text)])
     ++ (if decide (plan_services (container w)
                    = layer_services (_prometheus_layer (config w)))
         then []
         else AddLayer "prometheus" (_prometheus_layer (config w))
              :: (if bool_decide ("prometheus" ∈ active (container w))
                  then [Stop "prometheus"; Start "prometheus"]
                  else [Start "prometheus"])))%list.
Proof.
  intros Hc Hm E.
  assert (Hgen : forall wp pre,
    connected (container wp) = true -> managed (container wp) ->
    config wp = config w ->
    layers (container wp) = layers (container w) ->
    active (container wp) = active (container w) ->
    calls (container wp) = (calls (container w) ++ pre)%list ->
    _configure w = setup_workload wp ->
    calls_during _configure w
    = (pre
       ++ (if decide (plan_services (container w)
                      = layer_services (_prometheus_layer (config w)))
           then []
           else AddLayer "prometheus" (_prometheus_layer (config w))
                :: (if bool_decide ("prometheus" ∈ active (container w))
                    then [Stop "prometheus"; Start "prometheus"]
                    else [Start "prometheus"])))%list).
  { intros wp pre Hcp Hmp Hcfg Hlay Hact Hcalls Hrun.
    apply calls_during_app. unfold run. rewrite Hrun.
    rewrite (setup_workload_online_exact wp Hcp Hmp). cbn [fst].
    match goal with |- context [set_statuses ?x] =>
      destruct (set_statuses_parts x) as (_ & _ & _ & ->) end.
    cbn [container with_container].
    rewrite (plan_services_layers (container w) (container wp) Hlay), Hcfg.
    destruct (decide _) as [Hp|Hp].
    - now rewrite Hcalls, app_nil_r.
    - rewrite replanned_calls, Hcalls, Hact. now rewrite <- app_assoc. }
  destruct (decide (stored_prometheus_config_hash (stored w)
                    = Some (md5_hexdigest (fingerprint_input text))))
    as [Hh|Hh].
  - apply (Hgen w []).
    + exact Hc.
    + exact Hm.
    + reflexivity.
    + reflexivity.
    + reflexivity.
    + now rewrite app_nil_r.
    + now apply (configure_unchanged w text).
  - destruct (pebble_push_cases PROMETHEUS_CONFIG text (container w))
      as [[Hc' _]|[_ Hp]]; [congruence|].
    apply (Hgen (pushed text w)).
    + exact Hc.
    + now apply (managed_layers (container w)).
    + reflexivity.
    + reflexivity.
    + reflexivity.
    + reflexivity.
    + now apply (configure_pushed w text).
Qed.

(** The sample unit while Prometheus runs under an older command line. *)
Lemma pass_requests_witness :
  calls_during (@_configure Demo.libs) Demo.world_running
  = [Push PROMETHEUS_CONFIG (encode_utf8 Demo.config_text0);
     AddLayer "prometheus" (_prometheus_layer Demo.config0);
     Stop "prometheus"; Start "prometheus"].
Proof.
  rewrite (@pass_requests Demo.libs Demo.world_running Demo.config_text0).
  - vm_compute. reflexivity.
  - reflexivity.
  - right. eexists. split; [reflexivity|]. vm_compute.
    intros x Hx. exact Hx.
  - reflexivity.
Defined.
